(** * G-band photometry correction for Gaia EDR3 (notebook GCorrectionCode.ipynb)

    A shallow embedding of the function [correct_gband] of the notebook, over
    Rocq's primitive binary64 floats (the type behind [np.float64]) and a
    small model of the NumPy arrays the function works on. *)

From Stdlib Require Import Floats ZArith List Bool Lia.
From Stdlib Require Uint63.
Import ListNotations.

Set Warnings "-inexact-float".

(** ** IEEE 754 binary64: the facts about the primitive operations that the
    correction code relies on, derived from their specification on
    [spec_float]. *)
Module Float64.

Local Open Scope float_scope.

(** Python's [x > y] and [x >= y] on floats. *)
Definition gtb (x y : float) : bool := y <? x.
Definition geb (x y : float) : bool := y <=? x.

Definition SFis_nan (s : spec_float) : bool :=
  match s with S754_nan => true | _ => false end.

Lemma SFcompare_refl (s : spec_float) :
  SFcompare s s = if SFis_nan s then None else Some Eq.
Proof.
  destruct s as [[]|[]| |[] m e]; simpl; trivial;
    rewrite Z.compare_refl, Pos.compare_cont_refl; reflexivity.
Qed.

Lemma SFcompare_antisym (s t : spec_float) :
  SFcompare t s = option_map CompOpp (SFcompare s t).
Proof.
  destruct s as [[]|[]| |[] m e], t as [[]|[]| |[] m' e']; simpl; trivial;
    rewrite (Z.compare_antisym e' e);
    destruct (e' ?= e)%Z; simpl; trivial;
    change Eq with (CompOpp Eq) at 1;
    rewrite <- (Pos.compare_cont_antisym m m' Eq);
    try rewrite CompOpp_involutive; reflexivity.
Qed.

Lemma is_nan_spec (x : float) : is_nan x = SFis_nan (Prim2SF x).
Proof.
  unfold is_nan. rewrite FloatAxioms.eqb_spec. unfold SFeqb.
  rewrite SFcompare_refl. destruct (SFis_nan (Prim2SF x)); reflexivity.
Qed.

Lemma ltb_nan_l (y : float) : (nan <? y) = false.
Proof. rewrite FloatAxioms.ltb_spec. reflexivity. Qed.

Lemma ltb_nan_r (x : float) : (x <? nan) = false.
Proof.
  rewrite FloatAxioms.ltb_spec. unfold SFltb.
  change (Prim2SF nan) with S754_nan.
  destruct (Prim2SF x); reflexivity.
Qed.

Lemma leb_nan_r (x : float) : (x <=? nan) = false.
Proof.
  rewrite FloatAxioms.leb_spec. unfold SFleb.
  change (Prim2SF nan) with S754_nan.
  destruct (Prim2SF x); reflexivity.
Qed.

Lemma is_nan_eq (x : float) : is_nan x = true -> x = nan.
Proof.
  rewrite is_nan_spec. intros H. apply Prim2SF_inj.
  destruct (Prim2SF x); try discriminate. reflexivity.
Qed.

(** A comparison that succeeds has two ordered operands. *)
Lemma ltb_not_nan (x y : float) :
  (x <? y) = true -> is_nan x = false /\ is_nan y = false.
Proof.
  rewrite FloatAxioms.ltb_spec, !is_nan_spec. unfold SFltb.
  destruct (Prim2SF x), (Prim2SF y); simpl; try discriminate; auto.
Qed.

Lemma leb_not_nan (x y : float) :
  (x <=? y) = true -> is_nan x = false /\ is_nan y = false.
Proof.
  rewrite FloatAxioms.leb_spec, !is_nan_spec. unfold SFleb.
  destruct (Prim2SF x), (Prim2SF y); simpl; try discriminate; auto.
Qed.

(** On ordered operands [<] is the negation of the converse [<=]. *)
Lemma ltb_negb_leb (x y : float) :
  is_nan x = false -> is_nan y = false -> (x <? y) = negb (y <=? x).
Proof.
  rewrite FloatAxioms.ltb_spec, FloatAxioms.leb_spec, !is_nan_spec.
  unfold SFltb, SFleb.
  rewrite (SFcompare_antisym (Prim2SF x) (Prim2SF y)).
  intros Hx Hy.
  destruct (Prim2SF x) as [[]|[]| |[] m e], (Prim2SF y) as [[]|[]| |[] m' e'];
    try discriminate; simpl; trivial;
    destruct (e ?= e')%Z; simpl; trivial;
    destruct (Pos.compare_cont Eq m m'); reflexivity.
Qed.

Lemma ltb_leb_false (x y : float) : (x <? y) = true -> (y <=? x) = false.
Proof.
  intros H. destruct (ltb_not_nan _ _ H) as [Hx Hy].
  rewrite (ltb_negb_leb x y Hx Hy) in H.
  destruct (y <=? x); [discriminate | reflexivity].
Qed.

Lemma leb_ltb_false (x y : float) : (x <=? y) = true -> (y <? x) = false.
Proof.
  intros H. destruct (leb_not_nan _ _ H) as [Hx Hy].
  rewrite (ltb_negb_leb y x Hy Hx), H. reflexivity.
Qed.

(** Transitivity, first on the specification, by cases on the operands. *)
Ltac cmp_cases :=
  repeat match goal with
  | |- context [(?a ?= ?b)%Z] => destruct (Z.compare_spec a b)
  | H : context [(?a ?= ?b)%Z] |- _ => destruct (Z.compare_spec a b)
  | |- context [Pos.compare_cont Eq ?a ?b] =>
      change (Pos.compare_cont Eq a b) with (Pos.compare a b);
      destruct (Pos.compare_spec a b)
  | H : context [Pos.compare_cont Eq ?a ?b] |- _ =>
      change (Pos.compare_cont Eq a b) with (Pos.compare a b) in H;
      destruct (Pos.compare_spec a b)
  end.

Lemma SFltb_leb_trans (a b c : spec_float) :
  SFltb a b = true -> SFleb b c = true -> SFltb a c = true.
Proof.
  unfold SFltb, SFleb.
  destruct a as [[]|[]| |[] ma ea], b as [[]|[]| |[] mb eb],
           c as [[]|[]| |[] mc ec];
    simpl; try discriminate; trivial;
    cmp_cases; simpl; try discriminate; trivial; try lia.
Qed.

Lemma ltb_leb_trans (x y z : float) :
  (x <? y) = true -> (y <=? z) = true -> (x <? z) = true.
Proof.
  rewrite !FloatAxioms.ltb_spec, FloatAxioms.leb_spec.
  apply SFltb_leb_trans.
Qed.

(** Multiplying by one and subtracting zero return the operand itself, bit
    for bit: the rounding of [m * 2^52] at exponent [e - 52] shifts the
    fifty-two zero bits out again and has nothing to round. *)
Lemma digits2_shift52 (m : positive) :
  Zdigits2 (Z.pos (4503599627370496 * m)) = (Z.pos (digits2_pos m) + 52)%Z.
Proof.
  change (4503599627370496 * m)%positive
    with (m~0~0~0~0~0~0~0~0~0~0~0~0~0~0~0~0~0~0~0~0~0~0~0~0~0~0
           ~0~0~0~0~0~0~0~0~0~0~0~0~0~0~0~0~0~0~0~0~0~0~0~0~0~0)%positive.
  unfold Zdigits2. cbn [digits2_pos]. lia.
Qed.

Lemma shr_shift52 (m : positive) :
  SpecFloat.iter_pos shr_1 52%positive
    (shr_record_of_loc (Z.pos (4503599627370496 * m)) loc_Exact)
  = Build_shr_record (Z.pos m) false false.
Proof.
  change (4503599627370496 * m)%positive
    with (m~0~0~0~0~0~0~0~0~0~0~0~0~0~0~0~0~0~0~0~0~0~0~0~0~0~0
           ~0~0~0~0~0~0~0~0~0~0~0~0~0~0~0~0~0~0~0~0~0~0~0~0~0~0)%positive.
  reflexivity.
Qed.

Lemma SFmul_one_r (s : bool) (m : positive) (e : Z) :
  bounded prec emax m e = true ->
  SF64mul (S754_finite s m e) (Prim2SF 1) = S754_finite s m e.
Proof.
  intros Hb. unfold bounded, canonical_mantissa in Hb.
  apply andb_prop in Hb. destruct Hb as [Hc He].
  apply Z.eqb_eq in Hc.
  change (Prim2SF 1) with (S754_finite false 4503599627370496 (-52)).
  unfold SF64mul, SFmul. rewrite xorb_false_r.
  rewrite (Pos.mul_comm m).
  unfold binary_round_aux, shr_fexp.
  rewrite digits2_shift52.
  replace (Z.pos (digits2_pos m) + 52 + (e + -52))%Z
    with (Z.pos (digits2_pos m) + e)%Z by lia.
  rewrite Hc.
  replace (e - (e + -52))%Z with 52%Z by lia.
  unfold shr at 1. rewrite shr_shift52.
  cbn [shr_m loc_of_shr_record round_nearest_even Zdigits2].
  replace (e + -52 + 52)%Z with e by lia.
  rewrite Hc, Z.sub_diag. cbn [shr shr_record_of_loc shr_m].
  rewrite He. reflexivity.
Qed.

Lemma mul_one_r (x : float) : x * 1 = x.
Proof.
  apply Prim2SF_inj. rewrite FloatAxioms.mul_spec.
  pose proof (Prim2SF_valid x) as Hv.
  destruct (Prim2SF x) as [s|s| |s m e].
  - change (Prim2SF 1) with (S754_finite false 4503599627370496 (-52)).
    cbn. rewrite xorb_false_r. reflexivity.
  - change (Prim2SF 1) with (S754_finite false 4503599627370496 (-52)).
    cbn. rewrite xorb_false_r. reflexivity.
  - reflexivity.
  - apply SFmul_one_r. exact Hv.
Qed.

Lemma sub_zero_r (x : float) : x - 0 = x.
Proof.
  apply Prim2SF_inj. rewrite FloatAxioms.sub_spec.
  change (Prim2SF 0) with (S754_zero false).
  destruct (Prim2SF x) as [[]|[]| |s m e]; reflexivity.
Qed.

Lemma sub_nan_l (y : float) : nan - y = nan.
Proof.
  apply Prim2SF_inj. rewrite FloatAxioms.sub_spec. reflexivity.
Qed.

Lemma mul_nan_l (y : float) : nan * y = nan.
Proof.
  apply Prim2SF_inj. rewrite FloatAxioms.mul_spec. reflexivity.
Qed.

(** The three comparisons read one ordering. *)
Lemma leb_ltb_eqb (x y : float) : (x <=? y) = (x <? y) || (x =? y).
Proof.
  rewrite FloatAxioms.leb_spec, FloatAxioms.ltb_spec, FloatAxioms.eqb_spec.
  unfold SFleb, SFltb, SFeqb.
  destruct (SFcompare (Prim2SF x) (Prim2SF y)) as [[]|]; reflexivity.
Qed.

Lemma ltb_leb_neqb (x y : float) : (x <? y) = (x <=? y) && negb (x =? y).
Proof.
  rewrite FloatAxioms.leb_spec, FloatAxioms.ltb_spec, FloatAxioms.eqb_spec.
  unfold SFleb, SFltb, SFeqb.
  destruct (SFcompare (Prim2SF x) (Prim2SF y)) as [[]|]; reflexivity.
Qed.

Lemma eqb_sym (x y : float) : (x =? y) = (y =? x).
Proof.
  rewrite !FloatAxioms.eqb_spec. unfold SFeqb.
  rewrite (SFcompare_antisym (Prim2SF x) (Prim2SF y)).
  destruct (SFcompare (Prim2SF x) (Prim2SF y)) as [[]|]; reflexivity.
Qed.

(** A float that compares equal to a finite non-zero one is that float. *)
Lemma eqb_finite_eq (a x : float) s m e :
  Prim2SF a = S754_finite s m e -> (a =? x) = true -> x = a.
Proof.
  intros Ha H. apply Prim2SF_inj. rewrite Ha.
  rewrite FloatAxioms.eqb_spec, Ha in H. unfold SFeqb in H.
  destruct (Prim2SF x) as [[]|[]| |s' m' e']; destruct s; try discriminate H;
    simpl in H; destruct s'; try discriminate H;
    destruct (Z.compare_spec e e'); try discriminate H;
    change (Pos.compare_cont Eq m m') with (Pos.compare m m') in H;
    destruct (Pos.compare_spec m m'); try discriminate H; subst; reflexivity.
Qed.

(** A float minus itself is zero, and NaN when it is not finite. *)
Lemma sub_self (x : float) :
  x - x
  = if is_nan x || (x =? infinity) || (x =? neg_infinity) then nan else 0.
Proof.
  apply Prim2SF_inj.
  rewrite is_nan_spec, !FloatAxioms.eqb_spec, FloatAxioms.sub_spec.
  change (Prim2SF infinity) with (S754_infinity false).
  change (Prim2SF neg_infinity) with (S754_infinity true).
  destruct (Prim2SF x) as [[]|[]| |[] m e]; try reflexivity;
    unfold SF64sub, SFsub; rewrite Z.sub_diag; reflexivity.
Qed.

(** The quotient of a mantissa by itself, as the division computes it: the
    dividend is shifted by 53 bits and the remainder is zero. *)
Lemma SFdiv_core_self (m : positive) (e : Z) :
  SFdiv_core_binary prec emax (Z.pos m) e (Z.pos m) e
  = (9007199254740992%Z, (-53)%Z, loc_Exact).
Proof.
  unfold SFdiv_core_binary.
  replace (Zdigits2 (Z.pos m) + e - (Zdigits2 (Z.pos m) + e))%Z with 0%Z
    by lia.
  rewrite Z.sub_diag.
  change (Z.min (fexp prec emax 0) 0) with (-53)%Z.
  change (0 - -53)%Z with 53%Z. cbv iota beta.
  rewrite Z.shiftl_mul_pow2 by lia.
  assert (H : Z.div_eucl (Z.pos m * 2 ^ 53) (Z.pos m)
              = (9007199254740992%Z, 0%Z)).
  { pose proof (Z.div_eucl_eq (Z.pos m * 2 ^ 53) (Z.pos m) ltac:(lia)) as E.
    pose proof (Z.mod_pos_bound (Z.pos m * 2 ^ 53) (Z.pos m) ltac:(lia)) as B.
    unfold Z.modulo in B.
    destruct (Z.div_eucl (Z.pos m * 2 ^ 53) (Z.pos m)) as [q r].
    change (2 ^ 53)%Z with 9007199254740992%Z in *.
    assert (q = 9007199254740992%Z) by nia.
    subst q. f_equal. lia. }
  rewrite H. unfold new_location, new_location_even, new_location_odd.
  destruct (Z.even (Z.pos m)); reflexivity.
Qed.

(** A float divided by itself is one, and NaN when it is zero or not
    finite. *)
Lemma div_self (x : float) :
  x / x
  = if is_nan x || (x =? infinity) || (x =? neg_infinity) || (x =? 0)
    then nan else 1.
Proof.
  apply Prim2SF_inj.
  rewrite is_nan_spec, !FloatAxioms.eqb_spec, FloatAxioms.div_spec.
  change (Prim2SF infinity) with (S754_infinity false).
  change (Prim2SF neg_infinity) with (S754_infinity true).
  change (Prim2SF 0) with (S754_zero false).
  destruct (Prim2SF x) as [[]|[]| |s m e]; try reflexivity.
  unfold SF64div, SFdiv. rewrite SFdiv_core_self, xorb_nilpotent.
  destruct s; reflexivity.
Qed.

End Float64.

(** ** The NumPy values and operations that [correct_gband] uses. *)
Module Numpy.

(** An array is its shape (a tuple of axis lengths) and its elements in row
    major order; the elements are binary64 floats (dtype [float64]), integers
    (dtype [int64], within its range) or Booleans.  A NumPy scalar
    ([np.float64], [np.int64], [np.bool_]) has shape [()] like a zero
    dimensional array and is represented as one: the function below only
    reads [.shape] and applies element-wise operations, which treat the two
    alike. *)
Record ndarray (A : Type) : Type := mk_ndarray
  { shape : list nat;
    data : list A }.
Arguments mk_ndarray {A} shape data.
Arguments shape {A} _.
Arguments data {A} _.

(** What a caller may pass for one parameter: a Python scalar (float or int),
    or a NumPy array. *)
Inductive pyarg (A : Type) : Type :=
  | PyScalar (x : A)
  | PyArray (a : ndarray A).
Arguments PyScalar {A} x.
Arguments PyArray {A} a.

(** The exceptions a call can end in: the [ValueError] that [correct_gband]
    raises itself, and an error raised from inside a NumPy operation (operands
    that cannot be combined element by element, or a masked assignment whose
    number of values differs from the number of selected places). *)
Inductive exn : Type :=
  | ShapeMismatch
  | NumpyError.

Inductive result (A : Type) : Type :=
  | Ok (v : A)
  | Raise (e : exn).
Arguments Ok {A} v.
Arguments Raise {A} e.

Definition bind {A B : Type} (r : result A) (k : A -> result B) : result B :=
  match r with
  | Ok v => k v
  | Raise e => Raise e
  end.

Notation "x <- r ;; k" := (bind r (fun x => k))
  (at level 61, r at next level, right associativity).

Definition raises {A : Type} (r : result A) : bool :=
  match r with Ok _ => false | Raise _ => true end.

(** Number of elements of an array of a given shape. *)
Definition size_of (sh : list nat) : nat := fold_right Nat.mul 1 sh.

(** An array holds as many elements as its shape says. *)
Definition well_formed {A : Type} (a : ndarray A) : Prop :=
  length (data a) = size_of (shape a).

(** Equality of shapes, as Python compares tuples of ints. *)
Fixpoint shape_eqb (s t : list nat) : bool :=
  match s, t with
  | [], [] => true
  | x :: s', y :: t' => Nat.eqb x y && shape_eqb s' t'
  | _, _ => false
  end.

(** [np.isscalar]: true for Python and NumPy scalars, false for every
    [ndarray], the zero dimensional ones included. *)
Definition np_isscalar {A : Type} (x : pyarg A) : bool :=
  match x with
  | PyScalar _ => true
  | PyArray _ => false
  end.

Definition scalar_array {A : Type} (x : A) : ndarray A := mk_ndarray [] [x].

(** The array behind an argument that is one; a scalar is its own zero
    dimensional value. *)
Definition as_ndarray {A : Type} (x : pyarg A) : ndarray A :=
  match x with
  | PyScalar v => scalar_array v
  | PyArray a => a
  end.

(** [np.float64(x)].  [np.float64] derives from Python's [float] and lets that
    constructor convert first: [float(x)] succeeds on a scalar and on an array
    of exactly one element, of any number of dimensions, and the result is a
    scalar.  On any other array [float(x)] fails and the call returns the array
    itself, with its shape.  This is the conversion of the NumPy releases the
    notebook runs on (its cells call [np.float] and [np.int], which release
    1.24 removed); from release 2.4 on [float(x)] no longer accepts an array
    of one or more dimensions. *)
Definition np_float64 (x : pyarg float) : ndarray float :=
  match x with
  | PyScalar v => scalar_array v
  | PyArray a =>
      match data a with
      | [v] => scalar_array v
      | _ => a
      end
  end.

(** [np.int64(x)].  [np.int64] has no Python base type that converts first: a
    scalar or zero dimensional array gives a scalar, any array of one or more
    dimensions is returned as an array of the same shape.  A scalar is a
    Python int that fits [int64], as the solution types of the catalogue do;
    the [OverflowError] of a larger int is outside this conversion. *)
Definition np_int64 (x : pyarg Z) : ndarray Z :=
  match x with
  | PyScalar v => scalar_array v
  | PyArray a => a
  end.

(** A unary ufunc, or a binary one with a Python scalar as the other operand:
    the result has the operand's shape. *)
Definition ufunc1 {A B : Type} (f : A -> B) (a : ndarray A) : ndarray B :=
  mk_ndarray (shape a) (map f (data a)).

Fixpoint zip_with {A B C : Type} (f : A -> B -> C) (xs : list A) (ys : list B)
  : list C :=
  match xs, ys with
  | x :: xs', y :: ys' => f x y :: zip_with f xs' ys'
  | _, _ => []
  end.

(** A binary ufunc on two arrays.  Every use below combines arrays of one
    shape, where the result is element by element; operands of different
    shapes are reported as an error, broadcasting between them is not
    modelled. *)
Definition ufunc2 {A B C : Type} (f : A -> B -> C)
  (a : ndarray A) (b : ndarray B) : result (ndarray C) :=
  if shape_eqb (shape a) (shape b)
  then Ok (mk_ndarray (shape a) (zip_with f (data a) (data b)))
  else Raise NumpyError.

(** The elements of [xs] at the places where [mask] is true, in order. *)
Fixpoint select {A : Type} (xs : list A) (mask : list bool) : list A :=
  match xs, mask with
  | x :: xs', b :: mask' =>
      if b then x :: select xs' mask' else select xs' mask'
  | _, _ => []
  end.

(** [a[mask]] for a Boolean [mask] of the shape of [a]: the one dimensional
    array of the selected elements. *)
Definition getitem_mask {A : Type} (a : ndarray A) (mask : ndarray bool)
  : result (ndarray A) :=
  if shape_eqb (shape a) (shape mask)
  then let sel := select (data a) (data mask) in
       Ok (mk_ndarray [length sel] sel)
  else Raise NumpyError.

(** Writes [vals], in order, to the places of [xs] where [mask] is true;
    [None] when the number of values is not the number of places. *)
Fixpoint assign {A : Type} (xs : list A) (mask : list bool) (vals : list A)
  : option (list A) :=
  match xs, mask with
  | x :: xs', true :: mask' =>
      match vals with
      | v :: vals' => option_map (cons v) (assign xs' mask' vals')
      | [] => None
      end
  | x :: xs', false :: mask' => option_map (cons x) (assign xs' mask' vals)
  | _, _ => match vals with [] => Some xs | _ :: _ => None end
  end.

(** [a[mask] = vals] for a Boolean [mask] of the shape of [a] and a one
    dimensional [vals]; the updated array is returned. *)
Definition setitem_mask {A : Type} (a : ndarray A) (mask : ndarray bool)
  (vals : ndarray A) : result (ndarray A) :=
  if shape_eqb (shape a) (shape mask)
  then match assign (data a) (data mask) (data vals) with
       | Some d => Ok (mk_ndarray (shape a) d)
       | None => Raise NumpyError
       end
  else Raise NumpyError.

(** [np.clip] on one binary64 element: the ufunc computes
    [min (max x lo) hi] with a [max] and a [min] that return their first
    operand when it is NaN. *)
Definition npy_max (a b : float) : float :=
  if is_nan a then a else if Float64.gtb a b then a else b.
Definition npy_min (a b : float) : float :=
  if is_nan a then a else if (a <? b)%float then a else b.
Definition clip1 (lo hi x : float) : float := npy_min (npy_max x lo) hi.

Definition np_clip (a : ndarray float) (lo hi : float) : ndarray float :=
  ufunc1 (clip1 lo hi) a.

Definition np_isnan (a : ndarray float) : ndarray bool := ufunc1 is_nan a.

Definition np_logical_not (a : ndarray bool) : ndarray bool := ufunc1 negb a.

(** [np.ones_like] of a [float64] array: ones of its shape and of its dtype.
    The arrays of [correct_gband] below are [float64] arrays;
    [correct_gband_batch] further down takes the dtype as a parameter. *)
Definition np_ones_like (a : ndarray float) : ndarray float :=
  ufunc1 (fun _ => 1%float) a.

(** The array of shape [sh] whose elements are [g] of the rows [rs]: the
    form in which the proofs below carry arrays that are aligned on the same
    sources. *)
Definition tabulate {R A : Type} (sh : list nat) (g : R -> A) (rs : list R)
  : ndarray A :=
  mk_ndarray sh (map g rs).

(** *** Facts about the array operations *)

Lemma shape_eqb_eq (s t : list nat) : shape_eqb s t = true <-> s = t.
Proof.
  revert t. induction s as [|x s IH]; intros [|y t]; simpl; split;
    try discriminate; trivial.
  - intros H. apply andb_prop in H. destruct H as [Hx Hs].
    apply Nat.eqb_eq in Hx. apply IH in Hs. congruence.
  - intros H. injection H as -> ->. rewrite Nat.eqb_refl. simpl.
    apply IH. reflexivity.
Qed.

Lemma shape_eqb_refl (s : list nat) : shape_eqb s s = true.
Proof. apply shape_eqb_eq. reflexivity. Qed.

Lemma zip_with_map {R A B C : Type} (f : A -> B -> C) (g : R -> A)
  (h : R -> B) (rs : list R) :
  zip_with f (map g rs) (map h rs) = map (fun r => f (g r) (h r)) rs.
Proof. induction rs as [|r rs IH]; simpl; [|rewrite IH]; reflexivity. Qed.

Lemma select_map {R A : Type} (g : R -> A) (k : R -> bool) (rs : list R) :
  select (map g rs) (map k rs) = map g (filter k rs).
Proof.
  induction rs as [|r rs IH]; simpl; trivial.
  destruct (k r); simpl; rewrite IH; reflexivity.
Qed.

(** A masked assignment of values computed from the selected rows is a
    row by row choice between the new and the old value. *)
Lemma assign_map {R A : Type} (d v : R -> A) (k : R -> bool) (rs : list R) :
  assign (map d rs) (map k rs) (map v (filter k rs))
  = Some (map (fun r => if k r then v r else d r) rs).
Proof.
  induction rs as [|r rs IH]; simpl; trivial.
  destruct (k r); simpl; rewrite IH; reflexivity.
Qed.

Lemma ufunc1_tabulate {R A B : Type} (f : A -> B) sh (g : R -> A) rs :
  ufunc1 f (tabulate sh g rs) = tabulate sh (fun r => f (g r)) rs.
Proof. unfold ufunc1, tabulate. simpl. rewrite map_map. reflexivity. Qed.

Lemma ufunc2_tabulate {R A B C : Type} (f : A -> B -> C) sh (g : R -> A)
  (h : R -> B) rs :
  ufunc2 f (tabulate sh g rs) (tabulate sh h rs)
  = Ok (tabulate sh (fun r => f (g r) (h r)) rs).
Proof.
  unfold ufunc2, tabulate. simpl. rewrite shape_eqb_refl, zip_with_map.
  reflexivity.
Qed.

Lemma getitem_mask_tabulate {R A : Type} sh (g : R -> A) (k : R -> bool) rs :
  getitem_mask (tabulate sh g rs) (tabulate sh k rs)
  = Ok (tabulate [length (filter k rs)] g (filter k rs)).
Proof.
  unfold getitem_mask, tabulate. simpl.
  rewrite shape_eqb_refl, select_map, length_map. reflexivity.
Qed.

Lemma setitem_mask_tabulate {R A : Type} sh sh' (d v : R -> A)
  (k : R -> bool) rs :
  setitem_mask (tabulate sh d rs) (tabulate sh k rs)
    (tabulate sh' v (filter k rs))
  = Ok (tabulate sh (fun r => if k r then v r else d r) rs).
Proof.
  unfold setitem_mask, tabulate. simpl.
  rewrite shape_eqb_refl, assign_map. reflexivity.
Qed.

End Numpy.


(** ** IEEE 754 binary32, the element type of [float32] arrays, on the
    specification of the format (precision 24, infinities at exponent 128). *)
Module Float32.

Definition prec32 : Z := 24.
Definition emax32 : Z := 128.

Definition f32 : Type := spec_float.




Definition is_nan (x : f32) : bool :=
  match x with S754_nan => true | _ => false end.

Definition add : f32 -> f32 -> f32 := SFadd prec32 emax32.
Definition sub : f32 -> f32 -> f32 := SFsub prec32 emax32.
Definition mul : f32 -> f32 -> f32 := SFmul prec32 emax32.

End Float32.

(** ** Reference instances of the library functions.

    [correct_gband] calls [np.power] and [np.log10].  The theorems below hold
    for every pair of such functions; these two are one concrete pair, used
    where a statement is evaluated on an example. *)
Module Libm.

Local Open Scope float_scope.

(** [x] to an integer power by repeated multiplication. *)
Definition pow_ref (x : float) (n : Z) : float :=
  match n with
  | Z0 => 1
  | Zpos p => Pos.iter (fun acc => acc * x) 1 p
  | Zneg p => 1 / Pos.iter (fun acc => acc * x) 1 p
  end.

Definition float_of_Z (n : Z) : float :=
  match n with
  | Z0 => 0
  | Zpos _ => of_uint63 (Uint63.of_Z n)
  | Zneg p => - of_uint63 (Uint63.of_Z (Zpos p))
  end.

(** [1/d + z2/(d+2) + z2^2/(d+4) + ...], [n + 1] terms, by Horner's rule. *)
Fixpoint atanh_series (n : nat) (d z2 : float) : float :=
  match n with
  | O => 1 / d
  | S n' => 1 / d + z2 * atanh_series n' (d + 2) z2
  end.

(** Natural logarithm near one: [ln m = 2 atanh ((m - 1) / (m + 1))]. *)
Definition ln_ref (m : float) : float :=
  let z := (m - 1) / (m + 1) in
  2 * z * atanh_series 14 1 (z * z).

(** Decimal logarithm: the argument is split into a power of two and a
    mantissa between [sqrt 1/2] and [sqrt 2]. *)
Definition log10_ref (x : float) : float :=
  if is_nan x || (x <? 0) then nan
  else if x =? 0 then neg_infinity
  else if x =? infinity then infinity
  else
    let (m, e) := Z.frexp x in
    let (m, e) :=
      if m <? 0.70710678118654757 then (2 * m, (e - 1)%Z) else (m, e) in
    (float_of_Z e * 0.69314718055994529 + ln_ref m) / 2.3025850929940459.

End Libm.

(** ** The correction function of the notebook. *)
Module GCorrection.

Import Numpy.
Local Open Scope float_scope.

Section Corrector.

(** [np.log10] and [np.power] on one binary64 element.  Both are computed by
    the mathematical library behind NumPy, which is not part of the
    repository: the development is parametric in them. *)
Variable log10 : float -> float.
Variable power : float -> Z -> float.

(** [c0 - c1*x + c2*np.power(x,2) - c3*np.power(x,3)] on a one dimensional
    array [x], with Python's left to right grouping of [-] and [+]: the right
    hand side of the two masked assignments to [correction_factor].  The
    notebook writes the selection [bp_rp_c[mask]] out three times in each;
    it is the same array each time and is passed here once as [x]. *)
Definition cubic (c0 c1 c2 c3 : float) (x : ndarray float)
  : result (ndarray float) :=
  let t1 := ufunc1 (fun v => c1 * v) x in
  let s1 := ufunc1 (fun v => c0 - v) t1 in
  let t2 := ufunc1 (fun v => c2 * v) (ufunc1 (fun v => power v 2) x) in
  s2 <- ufunc2 add s1 t2 ;;
  let t3 := ufunc1 (fun v => c3 * v) (ufunc1 (fun v => power v 3) x) in
  ufunc2 sub s2 t3.

Definition correct_gband
  (bp_rp : pyarg float) (astrometric_params_solved : pyarg Z)
  (phot_g_mean_mag phot_g_mean_flux : pyarg float)
  : result (ndarray float * ndarray float) :=
  let any_scalar :=
    np_isscalar bp_rp || np_isscalar astrometric_params_solved
    || np_isscalar phot_g_mean_mag || np_isscalar phot_g_mean_flux in
  let bp_rp :=
    if any_scalar then np_float64 bp_rp else as_ndarray bp_rp in
  let astrometric_params_solved :=
    if any_scalar then np_int64 astrometric_params_solved
    else as_ndarray astrometric_params_solved in
  let phot_g_mean_mag :=
    if any_scalar then np_float64 phot_g_mean_mag
    else as_ndarray phot_g_mean_mag in
  let phot_g_mean_flux :=
    if any_scalar then np_float64 phot_g_mean_flux
    else as_ndarray phot_g_mean_flux in
  if negb (shape_eqb (shape bp_rp) (shape astrometric_params_solved)
           && shape_eqb (shape astrometric_params_solved)
                (shape phot_g_mean_mag)
           && shape_eqb (shape phot_g_mean_mag) (shape phot_g_mean_flux))
  then Raise ShapeMismatch
  else
    nan_or_below_13 <-
      ufunc2 orb (np_isnan bp_rp)
        (ufunc1 (fun m => m <? 13) phot_g_mean_mag) ;;
    do_not_correct <-
      ufunc2 orb nan_or_below_13
        (ufunc1 (fun a => (a =? 31)%Z) astrometric_params_solved) ;;
    not_below_13 <-
      ufunc2 andb (np_logical_not do_not_correct)
        (ufunc1 (fun m => Float64.geb m 13) phot_g_mean_mag) ;;
    bright_correct <-
      ufunc2 andb not_below_13
        (ufunc1 (fun m => m <=? 16) phot_g_mean_mag) ;;
    faint_correct <-
      ufunc2 andb (np_logical_not do_not_correct)
        (ufunc1 (fun m => Float64.gtb m 16) phot_g_mean_mag) ;;
    let bp_rp_c := np_clip bp_rp 0.25 3.0 in
    let correction_factor := np_ones_like phot_g_mean_mag in
    faint_colours <- getitem_mask bp_rp_c faint_correct ;;
    faint_values <- cubic 1.00525 0.02323 0.01740 0.00253 faint_colours ;;
    correction_factor <-
      setitem_mask correction_factor faint_correct faint_values ;;
    bright_colours <- getitem_mask bp_rp_c bright_correct ;;
    bright_values <- cubic 1.00876 0.02540 0.01747 0.00277 bright_colours ;;
    correction_factor <-
      setitem_mask correction_factor bright_correct bright_values ;;
    gmag_corrected <-
      ufunc2 sub phot_g_mean_mag
        (ufunc1 (fun v => 2.5 * v) (ufunc1 log10 correction_factor)) ;;
    gflux_corrected <- ufunc2 mul phot_g_mean_flux correction_factor ;;
    Ok (gmag_corrected, gflux_corrected).

(** *** The same computation read off for one source. *)

(** The three masks at one element. *)
Definition do_not_correct (colour : float) (solution : Z) (mag : float)
  : bool :=
  is_nan colour || (mag <? 13) || (solution =? 31)%Z.

Definition bright_correct (colour : float) (solution : Z) (mag : float)
  : bool :=
  negb (do_not_correct colour solution mag)
  && Float64.geb mag 13 && (mag <=? 16).

Definition faint_correct (colour : float) (solution : Z) (mag : float)
  : bool :=
  negb (do_not_correct colour solution mag) && Float64.gtb mag 16.

(** The two cubics in the clipped colour [c]. *)
Definition faint_cubic (c : float) : float :=
  1.00525 - 0.02323 * c + 0.01740 * power c 2 - 0.00253 * power c 3.

Definition bright_cubic (c : float) : float :=
  1.00876 - 0.02540 * c + 0.01747 * power c 2 - 0.00277 * power c 3.

Definition clamp (colour : float) : float := clip1 0.25 3.0 colour.

(** The entry of [correction_factor] for one source: one, overwritten by the
    faint assignment, then by the bright one. *)
Definition factor (colour : float) (solution : Z) (mag : float) : float :=
  if bright_correct colour solution mag then bright_cubic (clamp colour)
  else if faint_correct colour solution mag then faint_cubic (clamp colour)
  else 1.

Definition corrected_mag (colour : float) (solution : Z) (mag : float)
  : float :=
  mag - 2.5 * log10 (factor colour solution mag).

Definition corrected_flux (colour : float) (solution : Z) (mag flux : float)
  : float :=
  flux * factor colour solution mag.

(** *** Sources, batches and outputs *)

(** The four inputs of one source: colour, solution type, magnitude, flux. *)
Definition source : Type := (float * Z * float * float)%type.
Definition colour_of (r : source) : float := let '(c, _, _, _) := r in c.
Definition solution_of (r : source) : Z := let '(_, s, _, _) := r in s.
Definition mag_of (r : source) : float := let '(_, _, m, _) := r in m.
Definition flux_of (r : source) : float := let '(_, _, _, f) := r in f.

(** The rows of four aligned columns. *)
Fixpoint sources (cs : list float) (ss : list Z) (ms fs : list float)
  : list source :=
  match cs, ss, ms, fs with
  | c :: cs', s :: ss', m :: ms', f :: fs' =>
      (c, s, m, f) :: sources cs' ss' ms' fs'
  | _, _, _, _ => []
  end.

(** The inputs at index [i] of four arrays. *)
Definition source_at (bp_rp : ndarray float) (solved : ndarray Z)
  (mag flux : ndarray float) (i : nat) : option source :=
  match nth_error (data bp_rp) i, nth_error (data solved) i,
        nth_error (data mag) i, nth_error (data flux) i with
  | Some c, Some s, Some m, Some f => Some (c, s, m, f)
  | _, _, _, _ => None
  end.

(** The corrected magnitude and flux at index [i] of a returned pair. *)
Definition output_at (r : result (ndarray float * ndarray float)) (i : nat)
  : option (float * float) :=
  match r with
  | Ok (gmag, gflux) =>
      match nth_error (data gmag) i, nth_error (data gflux) i with
      | Some x, Some y => Some (x, y)
      | _, _ => None
      end
  | Raise _ => None
  end.

(** The guard of [correct_gband]:
    [bp_rp.shape == solved.shape == mag.shape == flux.shape]. *)
Definition same_shape (bp_rp : ndarray float) (solved : ndarray Z)
  (mag flux : ndarray float) : Prop :=
  shape bp_rp = shape solved /\ shape solved = shape mag
  /\ shape mag = shape flux.

Definition all_well_formed (bp_rp : ndarray float) (solved : ndarray Z)
  (mag flux : ndarray float) : Prop :=
  well_formed bp_rp /\ well_formed solved /\ well_formed mag
  /\ well_formed flux.

(** Exactly one of three flags is set. *)
Definition exactly_one (x y z : bool) : bool :=
  match x, y, z with
  | true, false, false | false, true, false | false, false, true => true
  | _, _, _ => false
  end.

(** [x] agrees with the decimal [v] up to [tol]. *)
Definition close_to (x v tol : float) : bool :=
  (v - tol <=? x) && (x <=? v + tol).

(** The floats at most [k] steps away from [x], on either side. *)
Fixpoint steps (next : float -> float) (k : nat) (x : float) : list float :=
  match k with
  | O => []
  | S k' => next x :: steps next k' (next x)
  end.

Definition neighbours (k : nat) (x : float) : list float :=
  x :: steps next_down k x ++ steps next_up k x.

(** *** The array program computes the per source functions *)

Lemma cubic_tabulate (c0 c1 c2 c3 : float) sh (g : source -> float) rs :
  cubic c0 c1 c2 c3 (tabulate sh g rs)
  = Ok (tabulate sh
          (fun r => c0 - c1 * g r + c2 * power (g r) 2 - c3 * power (g r) 3)
          rs).
Proof.
  unfold cubic. rewrite !ufunc1_tabulate, ufunc2_tabulate. cbn [bind].
  rewrite ufunc2_tabulate. reflexivity.
Qed.

(** Whatever the call convention, once the four converted inputs are columns
    of the same rows the function returns the per source results, row by
    row. *)
Lemma correct_gband_tabulate bp_rp solved mag flux sh rs :
  let any_scalar :=
    np_isscalar bp_rp || np_isscalar solved
    || np_isscalar mag || np_isscalar flux in
  (if any_scalar then np_float64 bp_rp else as_ndarray bp_rp)
    = tabulate sh colour_of rs ->
  (if any_scalar then np_int64 solved else as_ndarray solved)
    = tabulate sh solution_of rs ->
  (if any_scalar then np_float64 mag else as_ndarray mag)
    = tabulate sh mag_of rs ->
  (if any_scalar then np_float64 flux else as_ndarray flux)
    = tabulate sh flux_of rs ->
  correct_gband bp_rp solved mag flux
  = Ok (tabulate sh
          (fun r => corrected_mag (colour_of r) (solution_of r) (mag_of r))
          rs,
        tabulate sh
          (fun r => corrected_flux (colour_of r) (solution_of r) (mag_of r)
                      (flux_of r))
          rs).
Proof.
  intros any_scalar Hc Hs Hm Hf. unfold correct_gband.
  fold any_scalar. cbv zeta. rewrite Hc, Hs, Hm, Hf.
  change (shape (tabulate sh ?g rs)) with sh.
  rewrite !shape_eqb_refl. cbn [andb negb].
  unfold np_isnan, np_logical_not, np_clip, np_ones_like.
  repeat (rewrite ?ufunc1_tabulate, ?ufunc2_tabulate, ?getitem_mask_tabulate,
            ?cubic_tabulate, ?setitem_mask_tabulate; cbn [bind]).
  reflexivity.
Qed.

Lemma sources_columns cs ss ms fs :
  length cs = length ss -> length ss = length ms -> length ms = length fs ->
  map colour_of (sources cs ss ms fs) = cs
  /\ map solution_of (sources cs ss ms fs) = ss
  /\ map mag_of (sources cs ss ms fs) = ms
  /\ map flux_of (sources cs ss ms fs) = fs.
Proof.
  revert ss ms fs.
  induction cs as [|c cs IH]; intros [|s ss] [|m ms] [|f fs];
    simpl; try discriminate; auto.
  intros H1 H2 H3. injection H1 as H1. injection H2 as H2. injection H3 as H3.
  destruct (IH ss ms fs H1 H2 H3) as (E1 & E2 & E3 & E4).
  rewrite E1, E2, E3, E4. auto.
Qed.

Lemma sources_nth cs ss ms fs i c s m f :
  nth_error cs i = Some c -> nth_error ss i = Some s ->
  nth_error ms i = Some m -> nth_error fs i = Some f ->
  nth_error (sources cs ss ms fs) i = Some (c, s, m, f).
Proof.
  revert cs ss ms fs.
  induction i as [|i IH]; intros [|c' cs] [|s' ss] [|m' ms] [|f' fs];
    simpl; intros H1 H2 H3 H4; try discriminate.
  - injection H1 as ->. injection H2 as ->. injection H3 as ->.
    injection H4 as ->. reflexivity.
  - apply IH; assumption.
Qed.

Lemma source_at_nth bp_rp solved mag flux i r :
  source_at bp_rp solved mag flux i = Some r ->
  nth_error (sources (data bp_rp) (data solved) (data mag) (data flux)) i
  = Some r.
Proof.
  unfold source_at.
  destruct (nth_error (data bp_rp) i) eqn:E1; try discriminate.
  destruct (nth_error (data solved) i) eqn:E2; try discriminate.
  destruct (nth_error (data mag) i) eqn:E3; try discriminate.
  destruct (nth_error (data flux) i) eqn:E4; try discriminate.
  intros H. injection H as <-. apply sources_nth; assumption.
Qed.

(** A call on four well formed arrays of one shape. *)
Lemma correct_gband_arrays bp_rp solved mag flux :
  all_well_formed bp_rp solved mag flux ->
  same_shape bp_rp solved mag flux ->
  let rs := sources (data bp_rp) (data solved) (data mag) (data flux) in
  correct_gband (PyArray bp_rp) (PyArray solved) (PyArray mag) (PyArray flux)
  = Ok (tabulate (shape bp_rp)
          (fun r => corrected_mag (colour_of r) (solution_of r) (mag_of r))
          rs,
        tabulate (shape bp_rp)
          (fun r => corrected_flux (colour_of r) (solution_of r) (mag_of r)
                      (flux_of r))
          rs).
Proof.
  intros (W1 & W2 & W3 & W4) (S1 & S2 & S3) rs.
  unfold well_formed in *.
  destruct (sources_columns (data bp_rp) (data solved) (data mag) (data flux))
    as (E1 & E2 & E3 & E4); try congruence.
  subst rs.
  apply correct_gband_tabulate; cbn [np_isscalar orb as_ndarray];
    unfold tabulate.
  - rewrite E1. destruct bp_rp; reflexivity.
  - rewrite E2, S1. destruct solved; reflexivity.
  - rewrite E3, S1, S2. destruct mag; reflexivity.
  - rewrite E4, S1, S2, S3. destruct flux; reflexivity.
Qed.

(** Its outputs at one index. *)
Lemma correct_gband_at bp_rp solved mag flux i c s m f :
  all_well_formed bp_rp solved mag flux ->
  same_shape bp_rp solved mag flux ->
  source_at bp_rp solved mag flux i = Some (c, s, m, f) ->
  output_at
    (correct_gband (PyArray bp_rp) (PyArray solved) (PyArray mag)
       (PyArray flux)) i
  = Some (corrected_mag c s m, corrected_flux c s m f).
Proof.
  intros W S H. rewrite (correct_gband_arrays _ _ _ _ W S).
  apply source_at_nth in H.
  unfold output_at, tabulate. cbn [data].
  rewrite !nth_error_map, H. reflexivity.
Qed.

(** A call on four scalars. *)
Lemma correct_gband_scalars c s m f :
  correct_gband (PyScalar c) (PyScalar s) (PyScalar m) (PyScalar f)
  = Ok (scalar_array (corrected_mag c s m),
        scalar_array (corrected_flux c s m f)).
Proof.
  apply (correct_gband_tabulate (PyScalar c) (PyScalar s) (PyScalar m)
           (PyScalar f) [] [(c, s, m, f)]); reflexivity.
Qed.

(** *** The correction factor of one source *)

Lemma factor_uncorrected c s m :
  do_not_correct c s m = true -> factor c s m = 1.
Proof.
  intros H. unfold factor, bright_correct, faint_correct.
  rewrite H. reflexivity.
Qed.

Lemma factor_faint c s m :
  do_not_correct c s m = false -> Float64.gtb m 16 = true ->
  factor c s m = faint_cubic (clamp c).
Proof.
  intros H G. unfold factor, bright_correct, faint_correct.
  rewrite H, G. unfold Float64.gtb in G.
  rewrite (Float64.ltb_leb_false _ _ G), andb_false_r. reflexivity.
Qed.

Lemma factor_bright c s m :
  do_not_correct c s m = false ->
  Float64.geb m 13 = true -> (m <=? 16) = true ->
  factor c s m = bright_cubic (clamp c).
Proof.
  intros H G13 G16. unfold factor, bright_correct.
  rewrite H, G13, G16. reflexivity.
Qed.

Lemma factor_nan_mag c s m : is_nan m = true -> factor c s m = 1.
Proof.
  intros H. apply Float64.is_nan_eq in H. subst m.
  unfold factor, bright_correct, faint_correct, Float64.geb, Float64.gtb.
  rewrite Float64.leb_nan_r, Float64.ltb_nan_r, !andb_false_r. reflexivity.
Qed.

Lemma clamp_high c : Float64.geb c 3 = true -> clamp c = 3.
Proof.
  unfold Float64.geb. intros H.
  destruct (Float64.leb_not_nan _ _ H) as [_ Hc].
  assert (Hlo : (0.25 <? c) = true)
    by (apply (Float64.ltb_leb_trans 0.25 3 c); [reflexivity | exact H]).
  unfold clamp, clip1, npy_max, npy_min, Float64.gtb.
  rewrite Hc, Hlo, Hc, (Float64.leb_ltb_false _ _ H). reflexivity.
Qed.

Lemma clamp_low c : (c <=? 0.25) = true -> clamp c = 0.25.
Proof.
  intros H. destruct (Float64.leb_not_nan _ _ H) as [Hc _].
  unfold clamp, clip1, npy_max, npy_min, Float64.gtb.
  rewrite Hc, (Float64.leb_ltb_false _ _ H). reflexivity.
Qed.

(** Inside the clipping range [np.clip] returns the colour itself. *)
Lemma clamp_inside c :
  (0.25 <=? c) = true -> (c <=? 3.0) = true -> clamp c = c.
Proof using Type.
  intros Hlo Hhi.
  destruct (Float64.leb_not_nan _ _ Hhi) as [Hc _].
  unfold clamp, clip1, npy_max, npy_min, Float64.gtb. rewrite Hc.
  destruct (0.25 <? c) eqn:E.
  - rewrite Hc. destruct (c <? 3) eqn:E3; [reflexivity|].
    rewrite Float64.leb_ltb_eqb, E3, Float64.eqb_sym in Hhi.
    cbn [orb] in Hhi. symmetry.
    apply (Float64.eqb_finite_eq 3 c false 6755399441055744 (-51));
      [reflexivity | exact Hhi].
  - rewrite Float64.leb_ltb_eqb, E in Hlo. cbn [orb] in Hlo.
    apply (Float64.eqb_finite_eq 0.25 c false 4503599627370496 (-54)) in Hlo;
      [|reflexivity].
    subst c. reflexivity.
Qed.

(** [np.clip] to [0.25, 3.0] by cases on the colour: the lower bound below
    it, the upper bound above it, the colour itself in between (and for a
    NaN colour, which compares with neither bound). *)
Lemma clamp_by_cases c :
  clamp c = if c <? 0.25 then 0.25 else if 3.0 <? c then 3.0 else c.
Proof using Type.
  destruct (is_nan c) eqn:N.
  - apply Float64.is_nan_eq in N. subst c. reflexivity.
  - destruct (c <? 0.25) eqn:A.
    + apply clamp_low. rewrite Float64.leb_ltb_eqb, A. reflexivity.
    + destruct (3.0 <? c) eqn:B.
      * apply clamp_high. unfold Float64.geb.
        rewrite Float64.leb_ltb_eqb, B. reflexivity.
      * apply clamp_inside.
        -- rewrite (Float64.ltb_negb_leb c 0.25 N eq_refl) in A.
           destruct (0.25 <=? c); [reflexivity | discriminate A].
        -- rewrite (Float64.ltb_negb_leb 3.0 c eq_refl N) in B.
           destruct (c <=? 3.0); [reflexivity | discriminate B].
Qed.

(** The factor reads the colour only through its clipped value and through
    whether it is NaN. *)
Lemma factor_colour c c' s m :
  is_nan c = is_nan c' -> clamp c = clamp c' -> factor c s m = factor c' s m.
Proof.
  intros Hn Hc.
  unfold factor, bright_correct, faint_correct, do_not_correct.
  rewrite Hn, Hc. reflexivity.
Qed.

(** *** Properties of [correct_gband] *)

(** C1: in a batch of well formed arrays of one shape, a source that is not
    classified [do_not_correct] gets the faint cubic (1.00525, -0.02323,
    0.01740, -0.00253) as its correction factor when its magnitude is above
    16 and the bright cubic (1.00876, -0.02540, 0.01747, -0.00277) when its
    magnitude is between 13 and 16, both evaluated at the colour clamped to
    [0.25, 3.0]: at 0.25 for a colour below 0.25, at 3.0 for a colour above
    3.0 and at the colour itself otherwise.  The returned magnitude is
    [mag - 2.5 * log10 factor] and the returned flux is [flux * factor]. *)
Theorem correct_gband_regime_cubics bp_rp solved mag flux i c s m f :
  all_well_formed bp_rp solved mag flux ->
  same_shape bp_rp solved mag flux ->
  source_at bp_rp solved mag flux i = Some (c, s, m, f) ->
  do_not_correct c s m = false ->
  let x := if c <? 0.25 then 0.25 else if 3.0 <? c then 3.0 else c in
  let faint :=
    1.00525 - 0.02323 * x + 0.01740 * power x 2 - 0.00253 * power x 3 in
  let bright :=
    1.00876 - 0.02540 * x + 0.01747 * power x 2 - 0.00277 * power x 3 in
  let out :=
    output_at
      (correct_gband (PyArray bp_rp) (PyArray solved) (PyArray mag)
         (PyArray flux)) i in
  out = Some (m - 2.5 * log10 (factor c s m), f * factor c s m)
  /\ (Float64.gtb m 16 = true ->
      factor c s m = faint
      /\ out = Some (m - 2.5 * log10 faint, f * faint))
  /\ (Float64.geb m 13 = true -> (m <=? 16) = true ->
      factor c s m = bright
      /\ out = Some (m - 2.5 * log10 bright, f * bright)).
Proof.
  intros W S H D x faint bright out.
  assert (O : out = Some (m - 2.5 * log10 (factor c s m), f * factor c s m))
    by apply (correct_gband_at _ _ _ _ _ _ _ _ _ W S H).
  assert (X : clamp c = x) by apply clamp_by_cases.
  split; [exact O|]. split.
  - intros G. pose proof (factor_faint _ _ _ D G) as F.
    unfold faint_cubic in F. rewrite X in F. fold faint in F.
    split; [exact F|]. rewrite O, F. reflexivity.
  - intros G13 G16. pose proof (factor_bright _ _ _ D G13 G16) as F.
    unfold bright_cubic in F. rewrite X in F. fold bright in F.
    split; [exact F|]. rewrite O, F. reflexivity.
Qed.

(** C2: provided the logarithm of one is zero, a source whose colour is NaN,
    or whose magnitude is below 13, or whose solution type is 31, has
    correction factor exactly one and comes back unchanged: the returned
    magnitude and flux are the input magnitude and flux. *)
Theorem uncorrected_sources_unchanged bp_rp solved mag flux i c s m f :
  log10 1 = 0 ->
  all_well_formed bp_rp solved mag flux ->
  same_shape bp_rp solved mag flux ->
  source_at bp_rp solved mag flux i = Some (c, s, m, f) ->
  is_nan c = true \/ (m <? 13) = true \/ s = 31%Z ->
  factor c s m = 1
  /\ output_at
       (correct_gband (PyArray bp_rp) (PyArray solved) (PyArray mag)
          (PyArray flux)) i
     = Some (m, f).
Proof.
  intros L W S H D.
  assert (Hd : do_not_correct c s m = true).
  { unfold do_not_correct. destruct D as [D | [D | D]].
    - rewrite D. reflexivity.
    - rewrite D, orb_true_r. reflexivity.
    - subst s. rewrite orb_true_r. reflexivity. }
  assert (Hf : factor c s m = 1) by (apply factor_uncorrected; exact Hd).
  split; [exact Hf|].
  rewrite (correct_gband_at _ _ _ _ _ _ _ _ _ W S H).
  unfold corrected_mag, corrected_flux. rewrite Hf, L.
  change (2.5 * 0) with 0.
  rewrite Float64.sub_zero_r, Float64.mul_one_r. reflexivity.
Qed.

(** C3: a call on four well formed arrays ends in [ShapeMismatch], with no
    output, exactly when their shapes are not all the same; when the shapes
    are the same it returns a pair of arrays, whatever the element values. *)
Theorem shape_mismatch_iff bp_rp solved mag flux :
  all_well_formed bp_rp solved mag flux ->
  let call :=
    correct_gband (PyArray bp_rp) (PyArray solved) (PyArray mag)
      (PyArray flux) in
  (call = Raise ShapeMismatch <-> ~ same_shape bp_rp solved mag flux)
  /\ (~ same_shape bp_rp solved mag flux ->
      forall i, output_at call i = None)
  /\ (same_shape bp_rp solved mag flux -> raises call = false).
Proof.
  intros W call.
  assert (Hok : same_shape bp_rp solved mag flux -> raises call = false).
  { intros S. unfold call. rewrite (correct_gband_arrays _ _ _ _ W S).
    reflexivity. }
  assert (Hbad : ~ same_shape bp_rp solved mag flux ->
                 call = Raise ShapeMismatch).
  { intros N. unfold call, correct_gband.
    cbn [np_isscalar orb as_ndarray].
    destruct (shape_eqb (shape bp_rp) (shape solved)) eqn:E1;
      [|reflexivity].
    destruct (shape_eqb (shape solved) (shape mag)) eqn:E2; [|reflexivity].
    destruct (shape_eqb (shape mag) (shape flux)) eqn:E3; [|reflexivity].
    exfalso. apply N. apply shape_eqb_eq in E1, E2, E3.
    repeat split; assumption. }
  split; [split|split].
  - intros E S. apply Hok in S. rewrite E in S. discriminate.
  - exact Hbad.
  - intros N i. rewrite (Hbad N). reflexivity.
  - exact Hok.
Qed.

(** C4: what the function does at the two regime boundaries.  A source of
    magnitude exactly 13, with a colour and a solution type other than 31, is
    not in [do_not_correct]: it is in the bright regime and is corrected with
    the bright cubic, and so is a source of magnitude exactly 16. *)
Theorem boundary_magnitudes_are_bright c s f :
  is_nan c = false -> s <> 31%Z ->
  (do_not_correct c s 13 = false
   /\ bright_correct c s 13 = true
   /\ correct_gband (PyScalar c) (PyScalar s) (PyScalar 13) (PyScalar f)
      = Ok (scalar_array (13 - 2.5 * log10 (bright_cubic (clamp c))),
            scalar_array (f * bright_cubic (clamp c))))
  /\ (bright_correct c s 16 = true
      /\ correct_gband (PyScalar c) (PyScalar s) (PyScalar 16) (PyScalar f)
         = Ok (scalar_array (16 - 2.5 * log10 (bright_cubic (clamp c))),
               scalar_array (f * bright_cubic (clamp c)))).
Proof.
  intros Hc Hs. apply Z.eqb_neq in Hs.
  assert (D13 : do_not_correct c s 13 = false)
    by (unfold do_not_correct; rewrite Hc, Hs; reflexivity).
  assert (D16 : do_not_correct c s 16 = false)
    by (unfold do_not_correct; rewrite Hc, Hs; reflexivity).
  assert (B13 : bright_correct c s 13 = true)
    by (unfold bright_correct; rewrite D13; reflexivity).
  assert (B16 : bright_correct c s 16 = true)
    by (unfold bright_correct; rewrite D16; reflexivity).
  repeat split; trivial; rewrite correct_gband_scalars;
    unfold corrected_mag, corrected_flux, factor;
    rewrite ?B13, ?B16; reflexivity.
Qed.

(** C5: the three classes of a source are pairwise exclusive, and exactly one
    of them holds unless the magnitude is NaN while the colour is present and
    the solution type is not 31; for such a source none of the three holds. *)
Theorem classification_exactly_one_iff c s m :
  (exactly_one (do_not_correct c s m) (bright_correct c s m)
     (faint_correct c s m) = true
   <-> (is_nan m = false \/ is_nan c = true \/ s = 31%Z))
  /\ (exactly_one (do_not_correct c s m) (bright_correct c s m)
        (faint_correct c s m) = false ->
      do_not_correct c s m = false /\ bright_correct c s m = false
      /\ faint_correct c s m = false).
Proof using Type.
  unfold bright_correct, faint_correct, Float64.geb, Float64.gtb.
  destruct (do_not_correct c s m) eqn:D; cbn [negb andb exactly_one].
  - split; [|discriminate]. split; [|reflexivity]. intros _.
    unfold do_not_correct in D.
    destruct (is_nan c); [auto|]. destruct (Z.eqb_spec s 31); [auto|].
    left. rewrite orb_false_r in D. cbn [orb] in D.
    apply Float64.ltb_not_nan in D. exact (proj1 D).
  - unfold do_not_correct in D. apply orb_false_elim in D.
    destruct D as [D Hs]. apply orb_false_elim in D. destruct D as [Hc Hm].
    destruct (is_nan m) eqn:Hn.
    + apply Float64.is_nan_eq in Hn. subst m.
      rewrite Float64.leb_nan_r, Float64.ltb_nan_r. cbn [andb exactly_one].
      split; [|auto]. split; [discriminate|].
      intros [H | [H | H]]; [discriminate | congruence |].
      subst s. discriminate.
    + assert (H13 : (13 <=? m) = true).
      { rewrite (Float64.ltb_negb_leb m 13 Hn eq_refl) in Hm.
        destruct (13 <=? m); [reflexivity | discriminate]. }
      rewrite H13, (Float64.ltb_negb_leb 16 m eq_refl Hn).
      cbn [andb]. destruct (m <=? 16); cbn [negb exactly_one];
        (split; [split; auto | discriminate]).
Qed.

(** C7: clipping saturates.  Two batches that agree except for the colour of
    source [i], which is at least 3.0 in one and exactly 3.0 in the other (or
    at most 0.25 in one and exactly 0.25 in the other), give that source the
    same correction factor and the same corrected magnitude and flux. *)
Theorem clipping_saturates bp_rp bp_rp' solved mag flux i c bound s m f :
  all_well_formed bp_rp solved mag flux ->
  all_well_formed bp_rp' solved mag flux ->
  same_shape bp_rp solved mag flux ->
  same_shape bp_rp' solved mag flux ->
  source_at bp_rp solved mag flux i = Some (c, s, m, f) ->
  source_at bp_rp' solved mag flux i = Some (bound, s, m, f) ->
  (Float64.geb c 3.0 = true /\ bound = 3.0)
  \/ ((c <=? 0.25) = true /\ bound = 0.25) ->
  factor c s m = factor bound s m
  /\ output_at
       (correct_gband (PyArray bp_rp) (PyArray solved) (PyArray mag)
          (PyArray flux)) i
     = output_at
         (correct_gband (PyArray bp_rp') (PyArray solved) (PyArray mag)
            (PyArray flux)) i.
Proof.
  intros W W' S S' H H' B.
  assert (E : factor c s m = factor bound s m).
  { apply factor_colour.
    - destruct B as [[G ->] | [G ->]].
      + apply Float64.leb_not_nan in G. tauto.
      + apply Float64.leb_not_nan in G. tauto.
    - destruct B as [[G ->] | [G ->]].
      + rewrite (clamp_high _ G). reflexivity.
      + rewrite (clamp_low _ G). reflexivity. }
  split; [exact E|].
  rewrite (correct_gband_at _ _ _ _ _ _ _ _ _ W S H),
    (correct_gband_at _ _ _ _ _ _ _ _ _ W' S' H').
  unfold corrected_mag, corrected_flux. rewrite E. reflexivity.
Qed.


(** C9: a call that mixes scalars with a one element array in the place of
    a float parameter is not rejected: [np.float64] turns the array into a
    scalar and the call returns what the call on four scalars returns. *)
Theorem one_element_array_with_scalars_accepted sh c s m f :
  let colour := PyArray (mk_ndarray sh [c]) in
  let out :=
    Ok (scalar_array (corrected_mag c s m),
        scalar_array (corrected_flux c s m f)) in
  correct_gband colour (PyScalar s) (PyScalar m) (PyScalar f) = out
  /\ correct_gband (PyScalar c) (PyScalar s) (PyScalar m) (PyScalar f) = out
  /\ raises (correct_gband colour (PyScalar s) (PyScalar m) (PyScalar f))
     = false.
Proof.
  intros colour out.
  assert (E : correct_gband colour (PyScalar s) (PyScalar m) (PyScalar f)
              = out).
  { apply (correct_gband_tabulate colour (PyScalar s) (PyScalar m)
             (PyScalar f) [] [(c, s, m, f)]); reflexivity. }
  split; [exact E|]. split; [apply correct_gband_scalars|].
  rewrite E. reflexivity.
Qed.

(** C10: a source whose magnitude is NaN, with a colour and a solution type
    other than 31, is in none of the three classes; its correction factor
    stays one, its returned flux is the input flux and its returned magnitude
    is NaN. *)
Theorem nan_magnitude_keeps_flux bp_rp solved mag flux i c s m f :
  all_well_formed bp_rp solved mag flux ->
  same_shape bp_rp solved mag flux ->
  source_at bp_rp solved mag flux i = Some (c, s, m, f) ->
  is_nan m = true -> is_nan c = false -> s <> 31%Z ->
  (do_not_correct c s m = false /\ bright_correct c s m = false
   /\ faint_correct c s m = false)
  /\ factor c s m = 1
  /\ output_at
       (correct_gband (PyArray bp_rp) (PyArray solved) (PyArray mag)
          (PyArray flux)) i
     = Some (nan, f).
Proof.
  intros W S H Hm Hc Hs.
  assert (Hf : factor c s m = 1) by (apply factor_nan_mag; exact Hm).
  rewrite (correct_gband_at _ _ _ _ _ _ _ _ _ W S H).
  unfold corrected_mag, corrected_flux. rewrite Hf.
  apply Float64.is_nan_eq in Hm. subst m. apply Z.eqb_neq in Hs.
  unfold bright_correct, faint_correct, do_not_correct, Float64.geb,
    Float64.gtb.
  rewrite Hc, Hs, Float64.ltb_nan_l, Float64.leb_nan_r, Float64.ltb_nan_r,
    Float64.sub_nan_l, Float64.mul_one_r.
  repeat split; reflexivity.
Qed.

(** The factor of the source [colour = 0.5, solution = 95, mag = 18.0], for
    a power function that is exact on the square and the cube of one half. *)
Lemma faint_scenario_factor :
  power 0.5 2 = 0.25 -> power 0.5 3 = 0.125 ->
  factor 0.5 95 18 = 0.99766874999999988.
Proof.
  intros P2 P3. unfold factor.
  change (bright_correct 0.5 95 18) with false.
  change (faint_correct 0.5 95 18) with true.
  change (clamp 0.5) with 0.5. cbv iota.
  unfold faint_cubic. rewrite P2, P3. reflexivity.
Qed.

(** C6: for the scalar call [colour = 0.5, solution = 95, mag = 18.0,
    flux = 1000.0], with a power function exact on the square and cube of one
    half, the correction factor is the faint cubic at 0.5, which is
    0.99766875 up to rounding; the corrected flux is 997.66875 up to
    rounding, and the corrected magnitude is 18.00253 to five decimals when
    the logarithm returned for the factor is within four floats of
    -0.0010136309841560752. *)
Theorem faint_scenario_values :
  power 0.5 2 = 0.25 -> power 0.5 3 = 0.125 ->
  In (log10 0.99766874999999988) (neighbours 4 (-0.0010136309841560752)) ->
  factor 0.5 95 18
  = 1.00525 - 0.02323 * 0.5 + 0.01740 * 0.25 - 0.00253 * 0.125
  /\ factor 0.5 95 18 = 0.99766874999999988
  /\ exists gmag gflux,
       correct_gband (PyScalar 0.5) (PyScalar 95%Z) (PyScalar 18)
         (PyScalar 1000)
       = Ok (scalar_array gmag, scalar_array gflux)
       /\ close_to gmag 18.00253 0.000005 = true
       /\ gflux = 997.66874999999993
       /\ close_to gflux 997.669 0.0005 = true.
Proof.
  intros P2 P3 L.
  pose proof (faint_scenario_factor P2 P3) as F.
  split; [rewrite F; reflexivity|]. split; [exact F|].
  exists (corrected_mag 0.5 95 18), (corrected_flux 0.5 95 18 1000).
  split; [apply correct_gband_scalars|].
  unfold corrected_mag, corrected_flux. rewrite F.
  split; [|split; reflexivity].
  remember (log10 0.99766874999999988) as y eqn:Ey. clear Ey.
  vm_compute in L.
  repeat (destruct L as [L | L]; [subst y; reflexivity|]).
  contradiction.
Qed.

(** *** Calls that mix scalars and arrays *)

(** An argument that the [np.float64] conversion leaves with shape [()]. *)
Definition float_scalar_like (x : pyarg float) : bool :=
  match x with
  | PyScalar _ => true
  | PyArray a => Nat.eqb (length (data a)) 1
  end.

(** An argument that the [np.int64] conversion leaves with shape [()]. *)
Definition int_scalar_like (x : pyarg Z) : bool :=
  match x with
  | PyScalar _ => true
  | PyArray a => shape_eqb (shape a) []
  end.

Definition arg_well_formed {A : Type} (x : pyarg A) : Prop :=
  match x with
  | PyScalar _ => True
  | PyArray a => well_formed a
  end.

(** A solution type passed as a Python int fits [int64].  (For a larger
    int [np.int64] raises [OverflowError]; the conversion [np_int64] above
    is the one of ints that fit, and a statement about which calls raise
    carries this condition.) *)
Definition fits_int64 (x : pyarg Z) : Prop :=
  match x with
  | PyScalar v => (- 2 ^ 63 <= v < 2 ^ 63)%Z
  | PyArray _ => True
  end.

Lemma np_float64_scalar_like x :
  arg_well_formed x ->
  if float_scalar_like x
  then exists v, np_float64 x = scalar_array v
  else shape (np_float64 x) <> [].
Proof.
  destruct x as [v | [sh d]]; cbn; intros W.
  - exists v. reflexivity.
  - unfold well_formed in W. cbn in W.
    destruct d as [|v [|w d]]; cbn.
    + intros ->. discriminate.
    + exists v. reflexivity.
    + intros ->. discriminate.
Qed.

Lemma np_int64_scalar_like x :
  arg_well_formed x ->
  if int_scalar_like x
  then exists v, np_int64 x = scalar_array v
  else shape (np_int64 x) <> [].
Proof.
  destruct x as [v | [sh d]]; cbn; intros W.
  - exists v. reflexivity.
  - unfold well_formed in W. cbn in W.
    destruct sh as [|n sh]; cbn.
    + destruct d as [|v [|w d]]; try discriminate.
      exists v. reflexivity.
    + discriminate.
Qed.

(** X5: the outcome of every call with at least one scalar argument, a
    scalar solution type being an int that fits [int64]: the call is
    accepted when each float argument is a scalar or holds exactly one
    element and the solution type is a scalar or a zero dimensional array,
    and ends in [ShapeMismatch] otherwise. *)
Lemma mixed_call_outcome bp_rp solved mag flux :
  arg_well_formed bp_rp -> arg_well_formed solved ->
  arg_well_formed mag -> arg_well_formed flux ->
  fits_int64 solved ->
  np_isscalar bp_rp || np_isscalar solved
  || np_isscalar mag || np_isscalar flux = true ->
  if float_scalar_like bp_rp && int_scalar_like solved
     && float_scalar_like mag && float_scalar_like flux
  then raises (correct_gband bp_rp solved mag flux) = false
  else correct_gband bp_rp solved mag flux = Raise ShapeMismatch.
Proof.
  intros Wb Ws Wm Wf _ Any.
  pose proof (np_float64_scalar_like bp_rp Wb) as Hb.
  pose proof (np_int64_scalar_like solved Ws) as Hs.
  pose proof (np_float64_scalar_like mag Wm) as Hm.
  pose proof (np_float64_scalar_like flux Wf) as Hf.
  destruct (float_scalar_like bp_rp) eqn:Eb,
           (int_scalar_like solved) eqn:Es,
           (float_scalar_like mag) eqn:Em,
           (float_scalar_like flux) eqn:Ef; cbn [andb].
  1: { destruct Hb as [c Hb], Hs as [s Hs], Hm as [m Hm], Hf as [f Hf].
       rewrite (correct_gband_tabulate bp_rp solved mag flux []
                  [(c, s, m, f)]);
         [reflexivity | rewrite Any; assumption ..]. }
  all: unfold correct_gband; rewrite Any;
    destruct (shape_eqb (shape (np_float64 bp_rp)) (shape (np_int64 solved)))
      eqn:E1; [|reflexivity];
    destruct (shape_eqb (shape (np_int64 solved)) (shape (np_float64 mag)))
      eqn:E2; [|reflexivity];
    destruct (shape_eqb (shape (np_float64 mag)) (shape (np_float64 flux)))
      eqn:E3; [|reflexivity];
    exfalso; apply shape_eqb_eq in E1, E2, E3;
    assert (Hnil : shape (np_float64 bp_rp) = []);
    [ destruct bp_rp, solved, mag, flux; try discriminate Any;
      cbn in *; congruence
    | repeat match goal with
        | H : exists _, _ |- _ => clear H
        | H : shape _ <> [] |- _ => apply H; congruence
        end ].
Qed.

End Corrector.

(** *** The statements on an example batch

    Five sources: a faint one, a bright one bluer than the clipping range, one
    with solution type 31, one with no magnitude, and a faint one redder than
    the clipping range. *)
Definition example_bp_rp : ndarray float :=
  mk_ndarray [5%nat] [0.5; 0.1; 1.0; 1.0; 3.5].
Definition example_solved : ndarray Z :=
  mk_ndarray [5%nat] [95; 95; 31; 95; 95]%Z.
Definition example_mag : ndarray float :=
  mk_ndarray [5%nat] [18.0; 14.0; 20.0; nan; 17.0].
Definition example_flux : ndarray float :=
  mk_ndarray [5%nat] [1000.0; 500.0; 10.0; 200.0; 50.0].

(** The same batch with the last colour at the upper clipping bound. *)
Definition example_bp_rp_clipped : ndarray float :=
  mk_ndarray [5%nat] [0.5; 0.1; 1.0; 1.0; 3.0].

(** A column of two sources, which does not match the batch. *)
Definition example_short : ndarray float := mk_ndarray [2%nat] [0.5; 0.1].

(** The second source of the example batch is bright with colour 0.1, below
    the clipping range, and the fifth is faint with colour 3.5, above it:
    their cubics are evaluated at 0.25 and at 3.0. *)
Lemma correct_gband_regime_cubics_witness :
  (factor Libm.pow_ref 0.1 95 14
   = 1.00876 - 0.02540 * 0.25 + 0.01747 * Libm.pow_ref 0.25 2
     - 0.00277 * Libm.pow_ref 0.25 3
   /\ output_at
        (correct_gband Libm.log10_ref Libm.pow_ref (PyArray example_bp_rp)
           (PyArray example_solved) (PyArray example_mag)
           (PyArray example_flux)) 1
      = Some (13.996251358332113, 501.72929687499999))
  /\ (factor Libm.pow_ref 3.5 95 17
      = 1.00525 - 0.02323 * 3.0 + 0.01740 * Libm.pow_ref 3.0 2
        - 0.00253 * Libm.pow_ref 3.0 3
      /\ output_at
           (correct_gband Libm.log10_ref Libm.pow_ref (PyArray example_bp_rp)
              (PyArray example_solved) (PyArray example_mag)
              (PyArray example_flux)) 4
         = Some (16.974409163439663, 51.192499999999995)).
Proof.
  assert (W : all_well_formed example_bp_rp example_solved example_mag
                example_flux) by (repeat split; reflexivity).
  assert (S : same_shape example_bp_rp example_solved example_mag
                example_flux) by (repeat split; reflexivity).
  pose proof (correct_gband_regime_cubics Libm.log10_ref Libm.pow_ref
                example_bp_rp example_solved example_mag example_flux
                1 0.1 95%Z 14 500 W S eq_refl eq_refl) as B.
  pose proof (correct_gband_regime_cubics Libm.log10_ref Libm.pow_ref
                example_bp_rp example_solved example_mag example_flux
                4 3.5 95%Z 17 50 W S eq_refl eq_refl) as F.
  cbv zeta in B, F.
  destruct B as (_ & _ & B). destruct F as (_ & F & _).
  destruct (B eq_refl eq_refl) as [B1 B2]. destruct (F eq_refl) as [F1 F2].
  split; split; [exact B1 | rewrite B2; reflexivity
                | exact F1 | rewrite F2; reflexivity].
Defined.

(** The third source of the example batch has solution type 31 and comes
    back unchanged. *)
Lemma uncorrected_sources_unchanged_witness :
  factor Libm.pow_ref 1.0 31 20 = 1
  /\ output_at
       (correct_gband Libm.log10_ref Libm.pow_ref (PyArray example_bp_rp)
          (PyArray example_solved) (PyArray example_mag)
          (PyArray example_flux)) 2
     = Some (20.0, 10.0).
Proof.
  apply (uncorrected_sources_unchanged Libm.log10_ref Libm.pow_ref
           example_bp_rp example_solved example_mag example_flux
           2 1.0 31%Z 20 10).
  - reflexivity.
  - repeat split; reflexivity.
  - repeat split; reflexivity.
  - reflexivity.
  - right. right. reflexivity.
Defined.

(** A column of two sources against the batch of five is rejected; the batch
    itself is accepted. *)
Lemma shape_mismatch_iff_witness :
  correct_gband Libm.log10_ref Libm.pow_ref (PyArray example_short)
    (PyArray example_solved) (PyArray example_mag) (PyArray example_flux)
  = Raise ShapeMismatch
  /\ raises
       (correct_gband Libm.log10_ref Libm.pow_ref (PyArray example_bp_rp)
          (PyArray example_solved) (PyArray example_mag)
          (PyArray example_flux))
     = false.
Proof.
  split.
  - apply (proj1 (shape_mismatch_iff Libm.log10_ref Libm.pow_ref
                    example_short example_solved example_mag example_flux
                    ltac:(repeat split; reflexivity))).
    intros (H & _). discriminate H.
  - apply (proj2 (proj2 (shape_mismatch_iff Libm.log10_ref Libm.pow_ref
                    example_bp_rp example_solved example_mag example_flux
                    ltac:(repeat split; reflexivity)))).
    repeat split; reflexivity.
Defined.

(** The scalar call at magnitude 13 with colour 1.0 and flux 1000 returns a
    corrected flux of 998.06. *)
Lemma boundary_magnitudes_are_bright_witness :
  correct_gband Libm.log10_ref Libm.pow_ref (PyScalar 1.0) (PyScalar 95%Z)
    (PyScalar 13) (PyScalar 1000)
  = Ok (scalar_array 13.002108374021931, scalar_array 998.06000000000006).
Proof.
  pose proof (boundary_magnitudes_are_bright Libm.log10_ref Libm.pow_ref
                1.0 95%Z 1000 eq_refl) as H.
  destruct H as ((_ & _ & H) & _).
  - intros E. discriminate E.
  - rewrite H. reflexivity.
Defined.

(** The last source of the example batch, of colour 3.5, is corrected as if
    its colour were 3.0. *)
Lemma clipping_saturates_witness :
  factor Libm.pow_ref 3.5 95 17 = factor Libm.pow_ref 3.0 95 17
  /\ output_at
       (correct_gband Libm.log10_ref Libm.pow_ref (PyArray example_bp_rp)
          (PyArray example_solved) (PyArray example_mag)
          (PyArray example_flux)) 4
     = output_at
         (correct_gband Libm.log10_ref Libm.pow_ref
            (PyArray example_bp_rp_clipped) (PyArray example_solved)
            (PyArray example_mag) (PyArray example_flux)) 4.
Proof.
  apply (clipping_saturates Libm.log10_ref Libm.pow_ref example_bp_rp
           example_bp_rp_clipped example_solved example_mag example_flux
           4 3.5 3.0 95%Z 17 50).
  - repeat split; reflexivity.
  - repeat split; reflexivity.
  - repeat split; reflexivity.
  - repeat split; reflexivity.
  - reflexivity.
  - reflexivity.
  - left. split; reflexivity.
Defined.


(** The fourth source of the example batch has no magnitude and keeps its
    flux of 200. *)
Lemma nan_magnitude_keeps_flux_witness :
  factor Libm.pow_ref 1.0 95 nan = 1
  /\ output_at
       (correct_gband Libm.log10_ref Libm.pow_ref (PyArray example_bp_rp)
          (PyArray example_solved) (PyArray example_mag)
          (PyArray example_flux)) 3
     = Some (nan, 200.0).
Proof.
  apply (nan_magnitude_keeps_flux Libm.log10_ref Libm.pow_ref example_bp_rp
           example_solved example_mag example_flux 3 1.0 95%Z nan 200).
  - repeat split; reflexivity.
  - repeat split; reflexivity.
  - reflexivity.
  - reflexivity.
  - reflexivity.
  - intros E. discriminate E.
Defined.

(** The scenario with the reference power and logarithm. *)
Lemma faint_scenario_values_witness :
  factor Libm.pow_ref 0.5 95 18 = 0.99766874999999988
  /\ exists gmag gflux,
       correct_gband Libm.log10_ref Libm.pow_ref (PyScalar 0.5)
         (PyScalar 95%Z) (PyScalar 18) (PyScalar 1000)
       = Ok (scalar_array gmag, scalar_array gflux)
       /\ close_to gmag 18.00253 0.000005 = true
       /\ gflux = 997.66874999999993
       /\ close_to gflux 997.669 0.0005 = true.
Proof.
  apply (faint_scenario_values Libm.log10_ref Libm.pow_ref).
  - reflexivity.
  - reflexivity.
  - right. left. reflexivity.
Defined.

(** *** Where the written specification and the function part *)

(** Not every source is in exactly one of the three classes: one with a
    colour, a solution type other than 31 and no magnitude is in none. *)
Lemma classification_gap_at_nan_magnitude :
  ~ (forall (c : float) (s : Z) (m : float),
       exactly_one (do_not_correct c s m) (bright_correct c s m)
         (faint_correct c s m) = true).
Proof.
  intros H. specialize (H 1.0 95%Z nan). discriminate H.
Qed.

(** The values written for the scalar call [colour = 0.5, solution = 95,
    mag = 18.0, flux = 1000.0] (factor 0.997566..., corrected magnitude
    18.00266, corrected flux 997.566, to the digits given) are not what the
    function returns, for any logarithm and any power function that squares
    and cubes one half exactly: the factor is 0.99766875. *)
Lemma scenario_as_specified_fails :
  ~ exists (log10 : float -> float) (power : float -> Z -> float),
      power 0.5 2%Z = 0.25 /\ power 0.5 3%Z = 0.125
      /\ close_to (factor power 0.5 95 18) 0.9975665 0.0000005 = true
      /\ exists gmag gflux,
           correct_gband log10 power (PyScalar 0.5) (PyScalar 95%Z)
             (PyScalar 18) (PyScalar 1000)
           = Ok (scalar_array gmag, scalar_array gflux)
           /\ close_to gmag 18.00266 0.000005 = true
           /\ close_to gflux 997.566 0.0005 = true.
Proof.
  intros (log10 & power & P2 & P3 & F & _).
  rewrite (faint_scenario_factor power P2 P3) in F. discriminate F.
Qed.

(** ** Batches as a whole, and the checks the notebook runs on them *)

Section Notebook.

Variable log10 : float -> float.
Variable power : float -> Z -> float.

(** A one dimensional array. *)
Definition vector {A : Type} (xs : list A) : ndarray A :=
  mk_ndarray [length xs] xs.

(** What the verification cell of the notebook computes from the four columns
    of the input table, here its parameters: the three masks, the difference
    [deltag] and the ratio [fratio] between the corrected and the catalogue
    values, and the two selections whose range it prints, expected to be
    all zeros and all ones.  Reading the table, printing and the range
    reductions are left out. *)
Record verification : Type := mk_verification
  { not_corrected : ndarray bool;
    faint_corrected : ndarray bool;
    bright_corrected : ndarray bool;
    deltag : ndarray float;
    fratio : ndarray float;
    deltag_not_corrected : ndarray float;
    fratio_not_corrected : ndarray float }.

Definition verification_cell (bp_rp : ndarray float) (solved : ndarray Z)
  (mag flux : ndarray float) : result verification :=
  out <-
    correct_gband log10 power (PyArray bp_rp) (PyArray solved) (PyArray mag)
      (PyArray flux) ;;
  let '(gmag_corrected, gflux_corrected) := out in
  nan_or_up_to_13 <-
    ufunc2 orb (np_isnan bp_rp) (ufunc1 (fun m => m <=? 13) mag) ;;
  not_corrected <-
    ufunc2 orb nan_or_up_to_13 (ufunc1 (fun a => (a =? 31)%Z) solved) ;;
  faint_corrected <-
    ufunc2 andb (np_logical_not not_corrected)
      (ufunc1 (fun m => Float64.gtb m 16) mag) ;;
  above_13 <-
    ufunc2 andb (np_logical_not not_corrected)
      (ufunc1 (fun m => Float64.gtb m 13) mag) ;;
  bright_corrected <-
    ufunc2 andb above_13 (ufunc1 (fun m => m <=? 16) mag) ;;
  deltag <- ufunc2 sub gmag_corrected mag ;;
  fratio <- ufunc2 div gflux_corrected flux ;;
  deltag_not_corrected <- getitem_mask deltag not_corrected ;;
  fratio_not_corrected <- getitem_mask fratio not_corrected ;;
  Ok (mk_verification not_corrected faint_corrected bright_corrected deltag
        fratio deltag_not_corrected fratio_not_corrected).

(** The verification masks of one source. *)
Definition not_corrected_at (c : float) (s : Z) (m : float) : bool :=
  is_nan c || (m <=? 13) || (s =? 31)%Z.

(** NaN or an infinity. *)
Definition not_finite (x : float) : bool :=
  is_nan x || (x =? infinity) || (x =? neg_infinity).

(** *** Rows of a batch *)

Lemma sources_length cs ss ms fs :
  length cs = length ss -> length ss = length ms -> length ms = length fs ->
  length (sources cs ss ms fs) = length cs.
Proof.
  intros H1 H2 H3.
  destruct (sources_columns cs ss ms fs H1 H2 H3) as (E & _).
  rewrite <- E at 2. rewrite length_map. reflexivity.
Qed.

Lemma sources_app cs1 ss1 ms1 fs1 cs2 ss2 ms2 fs2 :
  length cs1 = length ss1 -> length ss1 = length ms1 ->
  length ms1 = length fs1 ->
  sources (cs1 ++ cs2) (ss1 ++ ss2) (ms1 ++ ms2) (fs1 ++ fs2)
  = sources cs1 ss1 ms1 fs1 ++ sources cs2 ss2 ms2 fs2.
Proof.
  revert ss1 ms1 fs1.
  induction cs1 as [|c cs1 IH]; intros [|s ss1] [|m ms1] [|f fs1];
    simpl; try discriminate; trivial.
  intros H1 H2 H3. injection H1 as H1. injection H2 as H2. injection H3 as H3.
  rewrite (IH ss1 ms1 fs1 H1 H2 H3). reflexivity.
Qed.

Lemma sources_nth_inv cs ss ms fs i c s m f :
  nth_error (sources cs ss ms fs) i = Some (c, s, m, f) ->
  nth_error cs i = Some c /\ nth_error ss i = Some s
  /\ nth_error ms i = Some m /\ nth_error fs i = Some f.
Proof.
  revert cs ss ms fs.
  induction i as [|i IH]; intros [|c' cs] [|s' ss] [|m' ms] [|f' fs];
    simpl; intros H; try discriminate H.
  - injection H as -> -> -> ->. auto.
  - apply IH. exact H.
Qed.

Lemma source_at_in bp_rp solved mag flux r :
  In r (sources (data bp_rp) (data solved) (data mag) (data flux)) ->
  exists i, source_at bp_rp solved mag flux i = Some r.
Proof.
  intros H. apply In_nth_error in H. destruct H as [i H]. exists i.
  destruct r as [[[c s] m] f].
  apply sources_nth_inv in H. destruct H as (H1 & H2 & H3 & H4).
  unfold source_at. rewrite H1, H2, H3, H4. reflexivity.
Qed.

(** The four columns of a well formed batch, as columns of its rows. *)
Lemma batch_columns bp_rp solved mag flux :
  all_well_formed bp_rp solved mag flux ->
  same_shape bp_rp solved mag flux ->
  let rs := sources (data bp_rp) (data solved) (data mag) (data flux) in
  bp_rp = tabulate (shape bp_rp) colour_of rs
  /\ solved = tabulate (shape bp_rp) solution_of rs
  /\ mag = tabulate (shape bp_rp) mag_of rs
  /\ flux = tabulate (shape bp_rp) flux_of rs
  /\ length rs = size_of (shape bp_rp).
Proof.
  intros (W1 & W2 & W3 & W4) (S1 & S2 & S3) rs. subst rs.
  unfold well_formed in *.
  assert (L1 : length (data bp_rp) = length (data solved)) by congruence.
  assert (L2 : length (data solved) = length (data mag)) by congruence.
  assert (L3 : length (data mag) = length (data flux)) by congruence.
  destruct (sources_columns _ _ _ _ L1 L2 L3) as (E1 & E2 & E3 & E4).
  rewrite (sources_length _ _ _ _ L1 L2 L3).
  unfold tabulate. rewrite E1, E2, E3, E4.
  repeat split; trivial.
  - destruct bp_rp; reflexivity.
  - rewrite S1. destruct solved; reflexivity.
  - rewrite S1, S2. destruct mag; reflexivity.
  - rewrite S1, S2, S3. destruct flux; reflexivity.
Qed.

(** X1: a call on well formed arrays of one shape returns two well formed
    arrays of that shape: one corrected magnitude and one corrected flux per
    source, none for an empty batch. *)
Theorem outputs_keep_shape bp_rp solved mag flux :
  all_well_formed bp_rp solved mag flux ->
  same_shape bp_rp solved mag flux ->
  exists gmag gflux,
    correct_gband log10 power (PyArray bp_rp) (PyArray solved) (PyArray mag)
      (PyArray flux)
    = Ok (gmag, gflux)
    /\ shape gmag = shape bp_rp /\ shape gflux = shape bp_rp
    /\ length (data gmag) = length (data bp_rp)
    /\ length (data gflux) = length (data bp_rp)
    /\ well_formed gmag /\ well_formed gflux.
Proof.
  intros W S.
  destruct (batch_columns _ _ _ _ W S) as (_ & _ & _ & _ & L).
  rewrite (correct_gband_arrays log10 power _ _ _ _ W S).
  destruct W as (W & _). unfold well_formed in *.
  eexists. eexists. split; [reflexivity|].
  unfold tabulate. cbn [shape data]. rewrite !length_map.
  repeat split; congruence.
Qed.

(** X2: on one dimensional batches the function works source by source:
    the call on two batches laid end to end returns the results of the two
    separate calls laid end to end. *)
Theorem correct_gband_concat cs1 ss1 ms1 fs1 cs2 ss2 ms2 fs2 :
  length cs1 = length ss1 -> length ss1 = length ms1 ->
  length ms1 = length fs1 ->
  length cs2 = length ss2 -> length ss2 = length ms2 ->
  length ms2 = length fs2 ->
  exists g1 f1 g2 f2,
    correct_gband log10 power (PyArray (vector cs1)) (PyArray (vector ss1))
      (PyArray (vector ms1)) (PyArray (vector fs1))
    = Ok (vector g1, vector f1)
    /\ correct_gband log10 power (PyArray (vector cs2))
         (PyArray (vector ss2)) (PyArray (vector ms2)) (PyArray (vector fs2))
       = Ok (vector g2, vector f2)
    /\ correct_gband log10 power (PyArray (vector (cs1 ++ cs2)))
         (PyArray (vector (ss1 ++ ss2))) (PyArray (vector (ms1 ++ ms2)))
         (PyArray (vector (fs1 ++ fs2)))
       = Ok (vector (g1 ++ g2), vector (f1 ++ f2)).
Proof.
  intros A1 A2 A3 B1 B2 B3.
  assert (batch : forall cs ss ms fs,
    length cs = length ss -> length ss = length ms ->
    length ms = length fs ->
    correct_gband log10 power (PyArray (vector cs)) (PyArray (vector ss))
      (PyArray (vector ms)) (PyArray (vector fs))
    = Ok (vector (map (fun r => corrected_mag log10 power (colour_of r)
                                  (solution_of r) (mag_of r))
                    (sources cs ss ms fs)),
          vector (map (fun r => corrected_flux power (colour_of r)
                                  (solution_of r) (mag_of r) (flux_of r))
                    (sources cs ss ms fs)))).
  { intros cs ss ms fs H1 H2 H3.
    rewrite (correct_gband_arrays log10 power (vector cs) (vector ss)
               (vector ms) (vector fs)).
    - unfold vector, tabulate. cbn [shape data]. rewrite !length_map.
      rewrite (sources_length _ _ _ _ H1 H2 H3). reflexivity.
    - unfold all_well_formed, well_formed, vector. cbn.
      repeat split; lia.
    - unfold same_shape, vector. cbn. repeat split; congruence. }
  do 4 eexists. split; [|split].
  - apply (batch _ _ _ _ A1 A2 A3).
  - apply (batch _ _ _ _ B1 B2 B3).
  - rewrite batch by (rewrite !length_app; congruence).
    rewrite (sources_app _ _ _ _ _ _ _ _ A1 A2 A3), !map_app. reflexivity.
Qed.

(** X3: NaN goes through.  A source without a magnitude gets NaN as its
    corrected magnitude and a source without a flux gets NaN as its corrected
    flux, whatever its other inputs and whatever the logarithm and the power
    function return. *)
Theorem nan_inputs_give_nan_outputs bp_rp solved mag flux i c s m f :
  all_well_formed bp_rp solved mag flux ->
  same_shape bp_rp solved mag flux ->
  source_at bp_rp solved mag flux i = Some (c, s, m, f) ->
  exists gmag gflux,
    output_at
      (correct_gband log10 power (PyArray bp_rp) (PyArray solved)
         (PyArray mag) (PyArray flux)) i
    = Some (gmag, gflux)
    /\ (is_nan m = true -> gmag = nan)
    /\ (is_nan f = true -> gflux = nan).
Proof.
  intros W S H.
  rewrite (correct_gband_at log10 power _ _ _ _ _ _ _ _ _ W S H).
  do 2 eexists. split; [reflexivity|]. split; intros N;
    apply Float64.is_nan_eq in N; subst.
  - apply Float64.sub_nan_l.
  - apply Float64.mul_nan_l.
Qed.

(** X4: a corrected source whose colour lies within the clipping range
    [0.25, 3.0], bounds included, is corrected with the cubic of its regime
    evaluated at its own colour. *)
Theorem colour_in_range_is_not_clipped bp_rp solved mag flux i c s m f :
  all_well_formed bp_rp solved mag flux ->
  same_shape bp_rp solved mag flux ->
  source_at bp_rp solved mag flux i = Some (c, s, m, f) ->
  (0.25 <=? c) = true -> (c <=? 3.0) = true ->
  let faint :=
    1.00525 - 0.02323 * c + 0.01740 * power c 2 - 0.00253 * power c 3 in
  let bright :=
    1.00876 - 0.02540 * c + 0.01747 * power c 2 - 0.00277 * power c 3 in
  let out :=
    output_at
      (correct_gband log10 power (PyArray bp_rp) (PyArray solved)
         (PyArray mag) (PyArray flux)) i in
  clip1 0.25 3.0 c = c
  /\ (faint_correct c s m = true ->
      out = Some (m - 2.5 * log10 faint, f * faint))
  /\ (bright_correct c s m = true ->
      out = Some (m - 2.5 * log10 bright, f * bright)).
Proof.
  intros W S H Hlo Hhi faint bright out.
  pose proof (clamp_inside c Hlo Hhi) as E.
  split; [exact E|].
  unfold out. rewrite (correct_gband_at log10 power _ _ _ _ _ _ _ _ _ W S H).
  unfold corrected_mag, corrected_flux. split; intros R.
  - unfold faint_correct in R. apply andb_prop in R. destruct R as [D G].
    apply negb_true_iff in D.
    rewrite (factor_faint power _ _ _ D G), E. reflexivity.
  - unfold factor. rewrite R, E. reflexivity.
Qed.

(** *** The verification cell *)

Lemma verification_cell_tabulate sh (rs : list source) :
  let at_row (g : float -> Z -> float -> bool) (r : source) :=
    g (colour_of r) (solution_of r) (mag_of r) in
  let dg (r : source) :=
    corrected_mag log10 power (colour_of r) (solution_of r) (mag_of r)
    - mag_of r in
  let fr (r : source) :=
    corrected_flux power (colour_of r) (solution_of r) (mag_of r) (flux_of r)
    / flux_of r in
  let picked := filter (at_row not_corrected_at) rs in
  verification_cell (tabulate sh colour_of rs) (tabulate sh solution_of rs)
    (tabulate sh mag_of rs) (tabulate sh flux_of rs)
  = Ok (mk_verification
          (tabulate sh (at_row not_corrected_at) rs)
          (tabulate sh
             (fun r => negb (at_row not_corrected_at r)
                       && Float64.gtb (mag_of r) 16) rs)
          (tabulate sh
             (fun r => negb (at_row not_corrected_at r)
                       && Float64.gtb (mag_of r) 13 && (mag_of r <=? 16)) rs)
          (tabulate sh dg rs) (tabulate sh fr rs)
          (tabulate [length picked] dg picked)
          (tabulate [length picked] fr picked)).
Proof.
  intros at_row dg fr picked.
  unfold verification_cell.
  rewrite (correct_gband_tabulate log10 power _ _ _ _ sh rs);
    try reflexivity.
  cbn [bind]. unfold np_isnan, np_logical_not.
  repeat (rewrite ?ufunc1_tabulate, ?ufunc2_tabulate, ?getitem_mask_tabulate;
          cbn [bind]).
  reflexivity.
Qed.

(** A magnitude above 16 is neither below nor equal to 13. *)
Lemma above_16_not_13 m :
  Float64.gtb m 16 = true -> (m <? 13) = false /\ (m =? 13) = false.
Proof using Type.
  unfold Float64.gtb. intros G.
  assert (L : (m <=? 13) = false).
  { destruct (m <=? 13) eqn:E; [|reflexivity].
    pose proof (Float64.ltb_leb_trans 16 m 13 G E) as C. discriminate C. }
  rewrite Float64.leb_ltb_eqb in L. apply orb_false_elim in L. exact L.
Qed.

(** X6: the masks of the verification cell against the masks of the
    function.  The cell counts a source of magnitude exactly 13 as not
    corrected and the function does not: [not_corrected] is the function's
    [do_not_correct] or a magnitude equal to 13, [bright_corrected] is the
    function's [bright_correct] without the magnitudes equal to 13, and
    [faint_corrected] is the function's [faint_correct]. *)
Theorem verification_masks_differ_at_13 bp_rp solved mag flux i c s m f :
  all_well_formed bp_rp solved mag flux ->
  same_shape bp_rp solved mag flux ->
  source_at bp_rp solved mag flux i = Some (c, s, m, f) ->
  exists v,
    verification_cell bp_rp solved mag flux = Ok v
    /\ nth_error (data (not_corrected v)) i
       = Some (do_not_correct c s m || (m =? 13))
    /\ nth_error (data (faint_corrected v)) i = Some (faint_correct c s m)
    /\ nth_error (data (bright_corrected v)) i
       = Some (bright_correct c s m && negb (m =? 13)).
Proof.
  intros W S H. apply source_at_nth in H.
  destruct (batch_columns _ _ _ _ W S) as (Eb & Es & Em & Ef & _).
  clear W S.
  set (rs := sources _ _ _ _) in *. set (sh := shape bp_rp) in *.
  clearbody rs sh. subst bp_rp solved mag flux.
  rewrite verification_cell_tabulate. eexists. split; [reflexivity|].
  cbn [not_corrected faint_corrected bright_corrected].
  unfold tabulate. cbn [data]. rewrite !nth_error_map, H.
  cbn [option_map colour_of solution_of mag_of].
  unfold not_corrected_at, bright_correct, faint_correct, do_not_correct,
    Float64.geb.
  pose proof (Float64.leb_ltb_eqb m 13) as E1.
  pose proof (Float64.ltb_leb_neqb 13 m) as E2.
  rewrite (Float64.eqb_sym 13 m) in E2.
  split; [|split]; f_equal.
  - rewrite E1.
    destruct (is_nan c), (m <? 13), (m =? 13), (s =? 31)%Z; reflexivity.
  - destruct (Float64.gtb m 16) eqn:G.
    + destruct (above_16_not_13 m G) as [L1 L2].
      rewrite E1, L1, L2. reflexivity.
    + rewrite !andb_false_r. reflexivity.
  - unfold Float64.gtb. rewrite E1, E2.
    destruct (is_nan c), (m <? 13), (m =? 13), (s =? 31)%Z, (13 <=? m),
      (m <=? 16); reflexivity.
Qed.

(** X7: the expectation of the verification cell.  When the logarithm of one
    is zero and no source that the function corrects sits at magnitude
    exactly 13, the selection [deltag[not_corrected]] holds, for each source
    of the mask in order, zero if its magnitude is finite and NaN if it is
    not, and the selection [fratio[not_corrected]] holds one if its flux is
    finite and not zero and NaN otherwise. *)
Theorem verification_expectation bp_rp solved mag flux :
  log10 1 = 0 ->
  all_well_formed bp_rp solved mag flux ->
  same_shape bp_rp solved mag flux ->
  forallb
    (fun r => do_not_correct (colour_of r) (solution_of r) (mag_of r)
              || negb (mag_of r =? 13))
    (sources (data bp_rp) (data solved) (data mag) (data flux)) = true ->
  let picked :=
    filter
      (fun r => not_corrected_at (colour_of r) (solution_of r) (mag_of r))
      (sources (data bp_rp) (data solved) (data mag) (data flux)) in
  exists v,
    verification_cell bp_rp solved mag flux = Ok v
    /\ data (deltag_not_corrected v)
       = map (fun r => if not_finite (mag_of r) then nan else 0) picked
    /\ data (fratio_not_corrected v)
       = map (fun r => if not_finite (flux_of r) || (flux_of r =? 0)
                       then nan else 1) picked.
Proof.
  intros L W S A picked. subst picked.
  destruct (batch_columns _ _ _ _ W S) as (Eb & Es & Em & Ef & _).
  clear W S.
  set (rs := sources _ _ _ _) in *. set (sh := shape bp_rp) in *.
  clearbody rs sh. subst bp_rp solved mag flux.
  rewrite verification_cell_tabulate. eexists. split; [reflexivity|].
  cbn [deltag_not_corrected fratio_not_corrected].
  unfold tabulate. cbn [data].
  assert (K : forall r,
    In r (filter (fun r => not_corrected_at (colour_of r) (solution_of r)
                             (mag_of r)) rs) ->
    factor power (colour_of r) (solution_of r) (mag_of r) = 1).
  { intros r Hr. apply filter_In in Hr. destruct Hr as [Hin Hk].
    apply factor_uncorrected.
    rewrite forallb_forall in A. specialize (A r Hin).
    unfold not_corrected_at in Hk. unfold do_not_correct in *.
    rewrite Float64.leb_ltb_eqb in Hk.
    destruct (is_nan (colour_of r)), (mag_of r <? 13), (mag_of r =? 13),
      (solution_of r =? 31)%Z; try reflexivity; discriminate. }
  split; apply map_ext_in; intros r Hr; specialize (K r Hr).
  - unfold corrected_mag. rewrite K, L. change (2.5 * 0) with 0.
    rewrite Float64.sub_zero_r, Float64.sub_self. reflexivity.
  - unfold corrected_flux. rewrite K.
    rewrite Float64.mul_one_r, Float64.div_self. reflexivity.
Qed.

End Notebook.

(** *** These statements on the example batch *)

(** The example batch with its second source at magnitude exactly 13. *)
Definition example_mag_at_13 : ndarray float :=
  mk_ndarray [5%nat] [18.0; 13.0; 20.0; nan; 17.0].

(** The example batch gives five magnitudes and five fluxes. *)
Lemma outputs_keep_shape_witness :
  exists gmag gflux,
    correct_gband Libm.log10_ref Libm.pow_ref (PyArray example_bp_rp)
      (PyArray example_solved) (PyArray example_mag) (PyArray example_flux)
    = Ok (gmag, gflux)
    /\ shape gmag = [5%nat] /\ shape gflux = [5%nat]
    /\ length (data gmag) = 5%nat /\ length (data gflux) = 5%nat
    /\ well_formed gmag /\ well_formed gflux.
Proof.
  apply (outputs_keep_shape Libm.log10_ref Libm.pow_ref example_bp_rp
           example_solved example_mag example_flux).
  - repeat split; reflexivity.
  - repeat split; reflexivity.
Defined.

(** One source followed by two. *)
Lemma correct_gband_concat_witness :
  exists g1 f1 g2 f2,
    correct_gband Libm.log10_ref Libm.pow_ref (PyArray (vector [0.5]))
      (PyArray (vector [95%Z])) (PyArray (vector [18.0]))
      (PyArray (vector [1000.0]))
    = Ok (vector g1, vector f1)
    /\ correct_gband Libm.log10_ref Libm.pow_ref
         (PyArray (vector [0.1; 1.0])) (PyArray (vector [95%Z; 31%Z]))
         (PyArray (vector [14.0; 20.0])) (PyArray (vector [500.0; 10.0]))
       = Ok (vector g2, vector f2)
    /\ correct_gband Libm.log10_ref Libm.pow_ref
         (PyArray (vector ([0.5] ++ [0.1; 1.0])))
         (PyArray (vector ([95%Z] ++ [95%Z; 31%Z])))
         (PyArray (vector ([18.0] ++ [14.0; 20.0])))
         (PyArray (vector ([1000.0] ++ [500.0; 10.0])))
       = Ok (vector (g1 ++ g2), vector (f1 ++ f2)).
Proof.
  apply (correct_gband_concat Libm.log10_ref Libm.pow_ref [0.5] [95%Z]
           [18.0] [1000.0] [0.1; 1.0] [95%Z; 31%Z] [14.0; 20.0]
           [500.0; 10.0]); reflexivity.
Defined.

(** The fourth source of the example batch has no magnitude. *)
Lemma nan_inputs_give_nan_outputs_witness :
  exists gmag gflux,
    output_at
      (correct_gband Libm.log10_ref Libm.pow_ref (PyArray example_bp_rp)
         (PyArray example_solved) (PyArray example_mag)
         (PyArray example_flux)) 3
    = Some (gmag, gflux)
    /\ (is_nan nan = true -> gmag = nan)
    /\ (is_nan 200.0 = true -> gflux = nan).
Proof.
  apply (nan_inputs_give_nan_outputs Libm.log10_ref Libm.pow_ref
           example_bp_rp example_solved example_mag example_flux 3 1.0 95%Z
           nan 200.0).
  - repeat split; reflexivity.
  - repeat split; reflexivity.
  - reflexivity.
Defined.

(** The first source of the example batch has colour 0.5, inside the
    range. *)
Lemma colour_in_range_is_not_clipped_witness :
  clip1 0.25 3.0 0.5 = 0.5
  /\ output_at
       (correct_gband Libm.log10_ref Libm.pow_ref (PyArray example_bp_rp)
          (PyArray example_solved) (PyArray example_mag)
          (PyArray example_flux)) 0
     = Some (18.002534077460389, 997.66874999999993).
Proof.
  pose proof (colour_in_range_is_not_clipped Libm.log10_ref Libm.pow_ref
                example_bp_rp example_solved example_mag example_flux
                0 0.5 95%Z 18.0 1000.0) as H.
  cbv zeta in H. destruct H as (H1 & H2 & _).
  - repeat split; reflexivity.
  - repeat split; reflexivity.
  - reflexivity.
  - reflexivity.
  - reflexivity.
  - split; [exact H1|]. rewrite H2; reflexivity.
Defined.

(** The second check of the notebook's last cell: two colours with a scalar
    solution type, magnitude and flux. *)
Lemma mixed_call_outcome_witness :
  correct_gband Libm.log10_ref Libm.pow_ref (PyArray (vector [0.1; 1.0]))
    (PyScalar 95%Z) (PyScalar 14.0) (PyScalar 500.0)
  = Raise ShapeMismatch.
Proof.
  apply (mixed_call_outcome Libm.log10_ref Libm.pow_ref
           (PyArray (vector [0.1; 1.0])) (PyScalar 95%Z) (PyScalar 14.0)
           (PyScalar 500.0)).
  - reflexivity.
  - exact I.
  - exact I.
  - exact I.
  - cbn. lia.
  - reflexivity.
Defined.

(** The source at magnitude 13: not corrected for the cell, bright for the
    function. *)
Lemma verification_masks_differ_at_13_witness :
  exists v,
    verification_cell Libm.log10_ref Libm.pow_ref example_bp_rp
      example_solved example_mag_at_13 example_flux
    = Ok v
    /\ nth_error (data (not_corrected v)) 1
       = Some (do_not_correct 0.1 95 13 || (13 =? 13))
    /\ nth_error (data (faint_corrected v)) 1
       = Some (faint_correct 0.1 95 13)
    /\ nth_error (data (bright_corrected v)) 1
       = Some (bright_correct 0.1 95 13 && negb (13 =? 13)).
Proof.
  apply (verification_masks_differ_at_13 Libm.log10_ref Libm.pow_ref
           example_bp_rp example_solved example_mag_at_13 example_flux
           1 0.1 95%Z 13.0 500.0).
  - repeat split; reflexivity.
  - repeat split; reflexivity.
  - reflexivity.
Defined.

(** Three sources, none at magnitude 13: one without colour, magnitude and
    flux, one of solution type 31, and a faint one that the mask leaves
    out. *)
Lemma verification_expectation_witness :
  exists v,
    verification_cell Libm.log10_ref Libm.pow_ref (vector [nan; 1.0; 0.5])
      (vector [95%Z; 31%Z; 95%Z]) (vector [nan; 20.0; 18.0])
      (vector [0.0; 10.0; 1000.0])
    = Ok v
    /\ data (deltag_not_corrected v) = [nan; 0]
    /\ data (fratio_not_corrected v) = [nan; 1].
Proof.
  apply (verification_expectation Libm.log10_ref Libm.pow_ref
           (vector [nan; 1.0; 0.5]) (vector [95%Z; 31%Z; 95%Z])
           (vector [nan; 20.0; 18.0]) (vector [0.0; 10.0; 1000.0])).
  - reflexivity.
  - repeat split; reflexivity.
  - repeat split; reflexivity.
  - reflexivity.
Defined.

(** ** Columns of another dtype

    [np.ones_like], the comparisons, [np.clip], the arithmetic with the
    Python constants, [np.power] and [np.log10] all work in the dtype of the
    arrays they are given: on [float32] columns the batched call computes in
    binary32, with the constants cast to it, while a scalar call converts its
    arguments with [np.float64] and computes in binary64. *)

(** What the function uses of the dtype of its float columns: the cast of a
    Python constant, the comparisons, the arithmetic, and the loops of
    [np.log10] and [np.power] for it. *)
Record dtype : Type := mk_dtype
  { elt : Type;
    cast : float -> elt;
    isnan : elt -> bool;
    less : elt -> elt -> bool;
    less_equal : elt -> elt -> bool;
    plus : elt -> elt -> elt;
    minus : elt -> elt -> elt;
    times : elt -> elt -> elt;
    log10_loop : elt -> elt;
    power_loop : elt -> Z -> elt }.

Definition float64 (log10 : float -> float) (power : float -> Z -> float)
  : dtype :=
  mk_dtype float (fun x => x) PrimFloat.is_nan PrimFloat.ltb PrimFloat.leb
    PrimFloat.add PrimFloat.sub PrimFloat.mul log10 power.


Section AnyDtype.

Variable D : dtype.

(** [np.clip] on one element, as [clip1] above. *)
Definition clip_in (lo hi : float) (x : elt D) : elt D :=
  let lo := cast D lo in
  let hi := cast D hi in
  let y := if isnan D x then x else if less D lo x then x else lo in
  if isnan D y then y else if less D y hi then y else hi.

Definition cubic_in (c0 c1 c2 c3 : float) (x : ndarray (elt D))
  : result (ndarray (elt D)) :=
  let t1 := ufunc1 (fun v => times D (cast D c1) v) x in
  let s1 := ufunc1 (fun v => minus D (cast D c0) v) t1 in
  let t2 :=
    ufunc1 (fun v => times D (cast D c2) v)
      (ufunc1 (fun v => power_loop D v 2) x) in
  s2 <- ufunc2 (plus D) s1 t2 ;;
  let t3 :=
    ufunc1 (fun v => times D (cast D c3) v)
      (ufunc1 (fun v => power_loop D v 3) x) in
  ufunc2 (minus D) s2 t3.

(** [correct_gband] called on four arrays, none of them a scalar, whose
    three float columns have the dtype [D]: the conversion branch is not
    taken and every step works in [D]. *)
Definition correct_gband_batch
  (bp_rp : ndarray (elt D)) (astrometric_params_solved : ndarray Z)
  (phot_g_mean_mag phot_g_mean_flux : ndarray (elt D))
  : result (ndarray (elt D) * ndarray (elt D)) :=
  if negb (shape_eqb (shape bp_rp) (shape astrometric_params_solved)
           && shape_eqb (shape astrometric_params_solved)
                (shape phot_g_mean_mag)
           && shape_eqb (shape phot_g_mean_mag) (shape phot_g_mean_flux))
  then Raise ShapeMismatch
  else
    nan_or_below_13 <-
      ufunc2 orb (ufunc1 (isnan D) bp_rp)
        (ufunc1 (fun m => less D m (cast D 13)) phot_g_mean_mag) ;;
    do_not_correct <-
      ufunc2 orb nan_or_below_13
        (ufunc1 (fun a => (a =? 31)%Z) astrometric_params_solved) ;;
    not_below_13 <-
      ufunc2 andb (np_logical_not do_not_correct)
        (ufunc1 (fun m => less_equal D (cast D 13) m) phot_g_mean_mag) ;;
    bright_correct <-
      ufunc2 andb not_below_13
        (ufunc1 (fun m => less_equal D m (cast D 16)) phot_g_mean_mag) ;;
    faint_correct <-
      ufunc2 andb (np_logical_not do_not_correct)
        (ufunc1 (fun m => less D (cast D 16) m) phot_g_mean_mag) ;;
    let bp_rp_c := ufunc1 (clip_in 0.25 3.0) bp_rp in
    let correction_factor := ufunc1 (fun _ => cast D 1) phot_g_mean_mag in
    faint_colours <- getitem_mask bp_rp_c faint_correct ;;
    faint_values <- cubic_in 1.00525 0.02323 0.01740 0.00253 faint_colours ;;
    correction_factor <-
      setitem_mask correction_factor faint_correct faint_values ;;
    bright_colours <- getitem_mask bp_rp_c bright_correct ;;
    bright_values <-
      cubic_in 1.00876 0.02540 0.01747 0.00277 bright_colours ;;
    correction_factor <-
      setitem_mask correction_factor bright_correct bright_values ;;
    gmag_corrected <-
      ufunc2 (minus D) phot_g_mean_mag
        (ufunc1 (fun v => times D (cast D 2.5) v)
           (ufunc1 (log10_loop D) correction_factor)) ;;
    gflux_corrected <-
      ufunc2 (times D) phot_g_mean_flux correction_factor ;;
    Ok (gmag_corrected, gflux_corrected).





End AnyDtype.

(** On [float64] columns this is [correct_gband] on four arrays. *)
Lemma correct_gband_batch_float64 log10 power bp_rp solved mag flux :
  correct_gband_batch (float64 log10 power) bp_rp solved mag flux
  = correct_gband log10 power (PyArray bp_rp) (PyArray solved) (PyArray mag)
      (PyArray flux).
Proof. reflexivity. Qed.



End GCorrection.
